(** * Habit tracker: streak engine, aggregator and habit creation

    Shallow embedding of [src/analytics.py] ([Analytics.calculate_streak],
    [Analytics.longest_streak_across]) and [src/database.py]
    ([Database.add_habit], [Database.proof_habit]).  The standard-library
    [datetime] operations the code relies on ([toordinal], subtraction and
    [.days], [isocalendar]) are written out as CPython's [datetime.py]
    computes them. *)

From Stdlib Require Import ZArith List String Ascii Bool Lia Sorted Permutation.
Import ListNotations.
Open Scope string_scope.
Open Scope Z_scope.

(** ** Naive datetimes

    A tracker row stores [check_of_date] as text;
    [datetime.strptime(text, "%Y-%m-%d %H:%M:%S")] turns it into these six
    fields. *)

Record datetime := mkdt {
  dt_year : Z; dt_month : Z; dt_day : Z;
  dt_hour : Z; dt_minute : Z; dt_second : Z }.

Definition is_leap (y : Z) : bool :=
  (y mod 4 =? 0) && (negb (y mod 100 =? 0) || (y mod 400 =? 0)).

Definition days_before_year (y : Z) : Z :=
  let y1 := y - 1 in y1 * 365 + y1 / 4 - y1 / 100 + y1 / 400.

(** [_DAYS_BEFORE_MONTH = [-1, 0, 31, 59, 90, 120, 151, 181, 212, 243, 273, 304, 334]] *)
Definition DAYS_BEFORE_MONTH (m : Z) : Z :=
  match m with
  | 1 => 0 | 2 => 31 | 3 => 59 | 4 => 90 | 5 => 120 | 6 => 151
  | 7 => 181 | 8 => 212 | 9 => 243 | 10 => 273 | 11 => 304 | 12 => 334
  | _ => -1
  end.

Definition days_before_month (y m : Z) : Z :=
  DAYS_BEFORE_MONTH m + (if (m >? 2) && is_leap y then 1 else 0).

Definition ymd2ord (y m d : Z) : Z :=
  days_before_year y + days_before_month y m + d.

Definition toordinal (t : datetime) : Z :=
  ymd2ord (dt_year t) (dt_month t) (dt_day t).

Definition day_seconds (t : datetime) : Z :=
  dt_hour t * 3600 + dt_minute t * 60 + dt_second t.

(** [(a - b).days]: the timedelta is normalised so that
    [0 <= seconds < 86400], hence [.days] is the floor of the difference
    in seconds divided by 86400. *)
Definition sub_days (a b : datetime) : Z :=
  ((toordinal a - toordinal b) * 86400 + (day_seconds a - day_seconds b)) / 86400.

(** [_isoweek1monday(year)] *)
Definition isoweek1monday (year : Z) : Z :=
  let firstday := ymd2ord year 1 1 in
  let firstweekday := (firstday + 6) mod 7 in
  let week1monday := firstday - firstweekday in
  if firstweekday >? 3 then week1monday + 7 else week1monday.

(** [date.isocalendar()[:2]], i.e. (ISO year, ISO week). *)
Definition isocalendar (t : datetime) : Z * Z :=
  let year := dt_year t in
  let today := toordinal t in
  let week := (today - isoweek1monday year) / 7 in
  if week <? 0 then
    (year - 1, (today - isoweek1monday (year - 1)) / 7 + 1)
  else if (week >=? 52) && (today >=? isoweek1monday (year + 1)) then
    (year + 1, 1)
  else (year, week + 1).

(** ** The streak loop of [calculate_streak] (lines 100-134) *)

(** Adjacency tests of the two branches, as written in the source. *)
Definition daily_adjacent (previous_date current_date : datetime) : bool :=
  sub_days current_date previous_date =? 1.

Definition weekly_adjacent (previous_date current_date : datetime) : bool :=
  let current_week := isocalendar current_date in
  let previous_week := isocalendar previous_date in
  ((fst current_week =? fst previous_week)
     && (snd current_week =? snd previous_week + 1))
  || ((fst current_week =? fst previous_week + 1)
     && (snd previous_week =? 52) && (snd current_week =? 1)).

(** One iteration of the [for] loop on the state
    [(longest_streak, current_streak)]; a periodicity other than
    ["daily"] and ["weekly"] matches neither branch and leaves it as is. *)
Definition streak_step (periodicity : string) (st : nat * nat)
    (previous_date current_date : datetime) : nat * nat :=
  let '(longest_streak, current_streak) := st in
  if String.eqb periodicity "daily" then
    if daily_adjacent previous_date current_date
    then (longest_streak, S current_streak)
    else (Nat.max longest_streak current_streak, 1%nat)
  else if String.eqb periodicity "weekly" then
    if weekly_adjacent previous_date current_date
    then (longest_streak, S current_streak)
    else (Nat.max longest_streak current_streak, 1%nat)
  else st.

(** The loop over [i = 1 .. len - 1], carrying [check_off_dates[i - 1]]. *)
Fixpoint streak_loop (periodicity : string) (st : nat * nat)
    (previous_date : datetime) (rest : list datetime) : nat * nat :=
  match rest with
  | [] => st
  | current_date :: rest' =>
      streak_loop periodicity (streak_step periodicity st previous_date current_date)
        current_date rest'
  end.

(** Lines 93-134 on the fetched, ordered [check_off_dates]. *)
Definition longest_streak_of (periodicity : string) (check_off_dates : list datetime) : nat :=
  match check_off_dates with
  | [] => 0%nat
  | first :: rest =>
      let '(longest_streak, current_streak) := streak_loop periodicity (0%nat, 1%nat) first rest in
      Nat.max longest_streak current_streak
  end.

(** ** Strings: [str.strip()] and [str.lower()] / SQL [LOWER] on ASCII text *)

(** The ASCII characters for which [str.isspace()] holds:
    ['\t' '\n' '\x0b' '\x0c' '\r'], ['\x1c' .. '\x1f'] and [' ']. *)
Definition is_space (c : ascii) : bool :=
  let n := nat_of_ascii c in
  ((9 <=? n) && (n <=? 13))%nat || ((28 <=? n) && (n <=? 32))%nat.

Definition lower_char (c : ascii) : ascii :=
  let n := nat_of_ascii c in
  if ((65 <=? n) && (n <=? 90))%nat then ascii_of_nat (n + 32) else c.

Fixpoint lower (s : string) : string :=
  match s with
  | EmptyString => EmptyString
  | String c s' => String (lower_char c) (lower s')
  end.

Fixpoint drop_spaces (l : list ascii) : list ascii :=
  match l with
  | [] => []
  | c :: l' => if is_space c then drop_spaces l' else l
  end.

Definition strip (s : string) : string :=
  string_of_list_ascii
    (rev (drop_spaces (rev (drop_spaces (list_ascii_of_string s))))).

(** ** Text of a timestamp, ["%Y-%m-%d %H:%M:%S"] *)

Definition digit_char (n : Z) : ascii := ascii_of_nat (48 + Z.to_nat n).

(** The last [w] decimal digits of [n], zero-padded. *)
Fixpoint zpad (w : nat) (n : Z) : string :=
  match w with
  | O => ""
  | S w' => zpad w' (n / 10) ++ String (digit_char (n mod 10)) ""
  end.

Definition format_date (t : datetime) : string :=
  zpad 4 (dt_year t) ++ "-" ++ zpad 2 (dt_month t) ++ "-" ++ zpad 2 (dt_day t).

Definition format_datetime (t : datetime) : string :=
  format_date t ++ " " ++ zpad 2 (dt_hour t) ++ ":" ++ zpad 2 (dt_minute t) ++ ":"
  ++ zpad 2 (dt_second t).

(** ** The SQLite store: tables [habit] and [tracker] *)

Record habit_row := mkhabit {
  h_id : nat; h_name : string; h_description : string;
  h_periodicity : string; h_date : string }.

(** A stored [check_of_date]: the text of the column, and the naive
    datetime that [strptime(text, "%Y-%m-%d %H:%M:%S")] reads from it. *)
Record stamp := mkstamp { st_text : string; st_time : datetime }.

(** The text [datetime.strftime("%Y-%m-%d %H:%M:%S")] writes; the literal
    check-off texts of [src/population.py] and of the tests have this form. *)
Definition strftime_stamp (t : datetime) : stamp := mkstamp (format_datetime t) t.

Record tracker_row := mktrack {
  t_check_of_date : stamp; t_habit_name : string }.

Record Database := mkdb {
  habit : list habit_row;       (* in rowid order *)
  tracker : list tracker_row;   (* in rowid order *)
  next_habit_id : nat }.

(** [Database.proof_habit]:
    [SELECT COUNT( * ) FROM habit WHERE LOWER(name) = LOWER(?)] is positive. *)
Definition proof_habit (db : Database) (habit_name : string) : bool :=
  existsb (fun h => String.eqb (lower (h_name h)) (lower habit_name)) (habit db).

(** [ORDER BY check_of_date ASC] compares the texts in the BINARY
    collation, byte by byte ([String.compare]); rows with equal texts keep
    their rowid order. *)
Fixpoint insert_stamp (x : stamp) (l : list stamp) : list stamp :=
  match l with
  | [] => [x]
  | y :: l' => if String.leb (st_text y) (st_text x) then y :: insert_stamp x l' else x :: l
  end.

Definition sort_stamps (l : list stamp) : list stamp :=
  fold_left (fun acc x => insert_stamp x acc) l [].

(** [SELECT check_of_date FROM tracker WHERE habit_name = ?
     ORDER BY check_of_date ASC], each text then read by [strptime]. *)
Definition check_offs (db : Database) (habit_name : string) : list tracker_row :=
  filter (fun r => String.eqb (t_habit_name r) habit_name) (tracker db).

Definition select_check_off_dates (db : Database) (habit_name : string) : list datetime :=
  map st_time (sort_stamps (map t_check_of_date (check_offs db habit_name))).

(** [SELECT periodicity FROM habit WHERE name = ?] then [fetchone()]. *)
Definition select_periodicity (db : Database) (habit_name : string) : option string :=
  option_map h_periodicity
    (find (fun h => String.eqb (h_name h) habit_name) (habit db)).

(** What [calculate_streak] hands back: an [int], the message [str], or
    the [TypeError] raised by [None[0]] when [fetchone()] finds no row. *)
Inductive streak_result :=
  | Streak (n : nat)
  | Message (s : string)
  | TypeError.

Definition not_found_message (habit_name : string) : string :=
  "Habit '" ++ habit_name ++ "' not found.".

(** [Analytics.calculate_streak] *)
Definition calculate_streak (db : Database) (habit_name : string) : streak_result :=
  if proof_habit db habit_name then
    let check_off_dates := select_check_off_dates db habit_name in
    match check_off_dates with
    | [] => Streak 0
    | _ =>
        match select_periodicity db habit_name with
        | None => TypeError
        | Some periodicity => Streak (longest_streak_of periodicity check_off_dates)
        end
    end
  else Message (not_found_message habit_name).

(** [Analytics.longest_streak_across]; [None] is the exception raised by
    [streak > longest_streak] when [streak] is not an [int]. *)
Fixpoint across_loop (db : Database) (longest_streak : nat)
    (habits_with_longest_streak : list (string * nat)) (all_habits : list string)
    : option (nat * list (string * nat)) :=
  match all_habits with
  | [] => Some (longest_streak, habits_with_longest_streak)
  | habit_name :: rest =>
      match calculate_streak db habit_name with
      | Streak streak =>
          if Nat.ltb longest_streak streak then
            across_loop db streak [(habit_name, streak)] rest
          else if Nat.eqb streak longest_streak then
            across_loop db longest_streak
              (habits_with_longest_streak ++ [(habit_name, streak)])%list rest
          else across_loop db longest_streak habits_with_longest_streak rest
      | _ => None
      end
  end.

(** [SELECT name FROM habit]: SQLite answers it from the index of the
    [UNIQUE] column [name], so the names come in BINARY (byte) order. *)
Fixpoint insert_name (x : string) (l : list string) : list string :=
  match l with
  | [] => [x]
  | y :: l' => if String.leb y x then y :: insert_name x l' else x :: l
  end.

Definition select_names (db : Database) : list string :=
  fold_right insert_name [] (map h_name (habit db)).

Definition longest_streak_across (db : Database) : option (list (string * nat)) :=
  let all_habits := select_names db in
  option_map snd (across_loop db 0%nat [] all_habits).

(** [Database.add_habit]: the returned message and the store afterwards.
    The [INSERT] fails only on the [UNIQUE] constraint of [habit.name]. *)
Definition add_habit (db : Database) (name description periodicity date : string)
    : string * Database :=
  let name := lower (strip name) in
  if String.eqb name "" then
    ("Error: Habit name cannot be empty or just whitespace.", db)
  else
    let description :=
      if String.eqb (strip description) "" then "No description" else description in
    if existsb (fun h => String.eqb (lower (h_name h)) (lower name)) (habit db) then
      ("Error: A habit with the name '" ++ name ++ "' already exists.", db)
    else if existsb (fun h => String.eqb (h_name h) name) (habit db) then
      ("Error adding habit: UNIQUE constraint failed: habit.name", db)
    else
      ("Habit '" ++ name ++ "' added successfully.",
       mkdb (habit db ++ [mkhabit (next_habit_id db) name description periodicity date])%list
            (tracker db) (S (next_habit_id db))).

(** [Database.increment_tracker] with an explicit [event_date]. *)
Definition increment_tracker (db : Database) (habit_name : string) (event_date : stamp)
    : string * Database :=
  match find (fun h => String.eqb (lower (h_name h)) (lower habit_name)) (habit db) with
  | None => ("Habit '" ++ habit_name ++ "' not found. Cannot add event.", db)
  | Some matched_habit =>
      ("Event for habit '" ++ h_name matched_habit ++ "' added on "
         ++ st_text event_date ++ ".",
       mkdb (habit db) (tracker db ++ [mktrack event_date (h_name matched_habit)])%list
            (next_habit_id db))
  end.

Definition empty_db : Database := mkdb [] [] 1.

(** ** Further queries and updates of [Database] and [Analytics] *)

(** [Database.get_habit_data]: [SELECT * FROM tracker WHERE habit_name=?]. *)
Definition get_habit_data (db : Database) (habit_name : string) : list tracker_row :=
  check_offs db habit_name.

(** [Analytics.calculate_count] *)
Definition calculate_count (db : Database) (habit_name : string) : nat :=
  List.length (get_habit_data db habit_name).

(** [Analytics.get_current_habit_names] over [Database.get_current_habits]. *)
Definition get_current_habit_names (db : Database) : list string :=
  map h_name (habit db).

(** [Analytics.get_info]: the rows, or the not-found message. *)
Definition get_info (db : Database) (habit_name : string) : list habit_row + string :=
  if proof_habit db habit_name then
    inl (filter (fun h => String.eqb (h_name h) habit_name) (habit db))
  else inr (not_found_message habit_name).

(** [Analytics.get_periodicity] *)
Definition get_periodicity (db : Database) (periodicity : string) : list string :=
  map h_name (filter (fun h => String.eqb (h_periodicity h) periodicity) (habit db)).

(** [Database.delete_habit_data]: both [DELETE] statements. *)
Definition delete_habit_data (db : Database) (habit_name : string) : Database :=
  mkdb (filter (fun h => negb (String.eqb (h_name h) habit_name)) (habit db))
       (filter (fun r => negb (String.eqb (t_habit_name r) habit_name)) (tracker db))
       (next_habit_id db).

(** [Database.delete_tracker_data] *)
Definition delete_tracker_data (db : Database) (habit_name : string) : Database :=
  mkdb (habit db)
       (filter (fun r => negb (String.eqb (t_habit_name r) habit_name)) (tracker db))
       (next_habit_id db).

(** [Database.delete_db]; the [AUTOINCREMENT] counter is kept. *)
Definition delete_db (db : Database) : string * Database :=
  ("All data has been successfully deleted.", mkdb [] [] (next_habit_id db)).

(** [Database.get_habit_periodicity] *)
Definition get_habit_periodicity (db : Database) (habit_name : string) : option string :=
  option_map h_periodicity
    (find (fun h => String.eqb (lower (h_name h)) (lower habit_name)) (habit db)).

(** [UPDATE habit SET name = new WHERE name = old]; the foreign key of
    [tracker] is declared [ON UPDATE CASCADE], so its rows follow. *)
Definition rename_habit (db : Database) (old new : string) : Database :=
  mkdb (map (fun h => if String.eqb (h_name h) old
                      then mkhabit (h_id h) new (h_description h) (h_periodicity h) (h_date h)
                      else h) (habit db))
       (map (fun r => if String.eqb (t_habit_name r) old
                      then mktrack (t_check_of_date r) new else r) (tracker db))
       (next_habit_id db).

Definition set_description (db : Database) (name d : string) : Database :=
  mkdb (map (fun h => if String.eqb (h_name h) name
                      then mkhabit (h_id h) (h_name h) d (h_periodicity h) (h_date h)
                      else h) (habit db))
       (tracker db) (next_habit_id db).

Definition set_periodicity (db : Database) (name p : string) : Database :=
  mkdb (map (fun h => if String.eqb (h_name h) name
                      then mkhabit (h_id h) (h_name h) (h_description h) p (h_date h)
                      else h) (habit db))
       (tracker db) (next_habit_id db).

(** Python truthiness of an optional string argument ([None] or [""] is false). *)
Definition truthy (o : option string) : option string :=
  match o with
  | Some s => if String.eqb s "" then None else Some s
  | None => None
  end.

(** [Database.update_habit]; [None] is the [sqlite3.IntegrityError] of the
    [UNIQUE] name column, which the method does not catch. *)
Definition update_habit (db : Database) (old_name : string)
    (new_name new_description new_periodicity : option string)
    : option (string * Database) :=
  match find (fun h => String.eqb (lower (h_name h)) (lower old_name)) (habit db) with
  | None => Some ("Habit '" ++ old_name ++ "' not found. Cannot update.", db)
  | Some existing_name =>
      let exact_name := h_name existing_name in
      let step1 :=
        match truthy new_name with
        | Some nn =>
            if existsb (fun h => String.eqb (h_name h) nn && negb (String.eqb (h_name h) exact_name))
                 (habit db)
            then None
            else Some (rename_habit db exact_name nn, nn)
        | None => Some (db, exact_name)
        end in
      match step1 with
      | None => None
      | Some (db1, exact_name) =>
          let db2 := match truthy new_description with
                     | Some d => set_description db1 exact_name d | None => db1 end in
          let db3 := match truthy new_periodicity with
                     | Some p => set_periodicity db2 exact_name p | None => db2 end in
          Some ("Habit '" ++ exact_name ++ "' has been updated successfully.", db3)
      end
  end.

(** SQLite's date functions read a text only when its fields are
    zero-padded ([YYYY-MM-DD HH:MM:SS]); [strptime] also accepts an
    unpadded month or day (["2024-1-5"]), on which they give [NULL]. *)
Definition sql_readable (s : stamp) : bool :=
  String.eqb (st_text s) (format_datetime (st_time s)).

(** [DATE(check_of_date)]: the calendar date of a timestamp, [None] for [NULL]. *)
Definition sql_date (s : stamp) : option (Z * Z * Z) :=
  let t := st_time s in
  if sql_readable s then Some (dt_year t, dt_month t, dt_day t) else None.

(** [strftime('%Y-%W', t)]: the year and the week of the year in which
    weeks start on Monday and days before the first Monday are week 0. *)
Definition sql_week (s : stamp) : option (Z * Z) :=
  let t := st_time s in
  let yday := toordinal t - ymd2ord (dt_year t) 1 1 in
  let wd := (toordinal t + 6) mod 7 in
  if sql_readable s then Some (dt_year t, (yday + 7 - wd) / 7) else None.

Definition pair_eqb (a b : Z * Z) : bool := (fst a =? fst b) && (snd a =? snd b).

Definition date_eqb (a b : Z * Z * Z) : bool :=
  pair_eqb (fst a) (fst b) && (snd a =? snd b).

(** SQL [=]: [NULL] is equal to nothing, not even to [NULL]. *)
Definition sql_eqb {A : Type} (eqb : A -> A -> bool) (a b : option A) : bool :=
  match a, b with
  | Some x, Some y => eqb x y
  | _, _ => false
  end.

(** The non-[NULL] values of a column. *)
Fixpoint non_null {A : Type} (l : list (option A)) : list A :=
  match l with
  | [] => []
  | Some x :: l' => x :: non_null l'
  | None :: l' => non_null l'
  end.

(** [Database.check_event_exists]; [None] is the [TypeError] of
    [cur.fetchone()[0]] when no query ran (any other periodicity). *)
Definition check_event_exists (db : Database) (habit_name : string) (event_date : stamp)
    (periodicity : string) : option bool :=
  if String.eqb periodicity "daily" then
    Some (existsb (fun r => String.eqb (t_habit_name r) habit_name
                     && sql_eqb date_eqb (sql_date (t_check_of_date r)) (sql_date event_date))
                  (tracker db))
  else if String.eqb periodicity "weekly" then
    Some (existsb (fun r => String.eqb (t_habit_name r) habit_name
                     && sql_eqb pair_eqb (sql_week (t_check_of_date r)) (sql_week event_date))
                  (tracker db))
  else None.

(** ** [src/habits.py]: [Habit] and [DBHabit] *)

Record Habit := mkHabit {
  hb_name : string; hb_description : string; hb_periodicity : string; hb_date : string }.

(** [Habit.__init__]; [date] is [datetime.now()] formatted. *)
Definition new_habit (name description periodicity date : string) : Habit :=
  mkHabit (lower (strip name)) (strip description) periodicity date.

(** [DBHabit.store] *)
Definition store (self : Habit) (db : Database) : string * Database :=
  if String.eqb (strip (hb_name self)) "" then
    ("Habit name cannot be blank or just whitespace. It was not added.", db)
  else
    let description :=
      if String.eqb (strip (hb_description self)) "" then "No description"
      else hb_description self in
    if proof_habit db (hb_name self) then
      ("Habit '" ++ hb_name self ++ "' already exists. It was not added.", db)
    else add_habit db (hb_name self) description (hb_periodicity self) (hb_date self).

(** The [date] argument of [DBHabit.add_event]: absent (or [""]), in which
    case [datetime.now()] is used, or a text together with the outcome of
    [datetime.strptime(date, "%Y-%m-%d")] on it ([None] for [ValueError]). *)
Inductive date_arg :=
  | NoDate (now : datetime)
  | GivenDate (text : string) (parsed : option (Z * Z * Z)).

(** [DBHabit.add_event]; [None] is the [TypeError] raised inside
    [check_event_exists].  A given date is stored as the text
    [f"{date} 00:00:00"]. *)
Definition add_event (self : Habit) (db : Database) (date : date_arg)
    : option (string * Database) :=
  if proof_habit db (hb_name self) then
    let date :=
      match date with
      | NoDate now => inr (strftime_stamp now)
      | GivenDate text (Some (y, m, d)) => inr (mkstamp (text ++ " 00:00:00") (mkdt y m d 0 0 0))
      | GivenDate text None => inl text
      end in
    match date with
    | inl text => Some ("Invalid date format: '" ++ text ++ "'. Please use YYYY-MM-DD.", db)
    | inr date =>
        match get_habit_periodicity db (hb_name self) with
        | None =>
            Some ("Could not determine periodicity for habit '" ++ hb_name self ++ "'.", db)
        | Some periodicity =>
            if String.eqb periodicity "" then
              Some ("Could not determine periodicity for habit '" ++ hb_name self ++ "'.", db)
            else
              match check_event_exists db (hb_name self) date periodicity with
              | None => None
              | Some true =>
                  if String.eqb periodicity "daily" then
                    Some ("Habit '" ++ hb_name self ++ "' was already checked-off on "
                          ++ substring 0 10 (st_text date) ++ ".", db)
                  else if String.eqb periodicity "weekly" then
                    Some ("Habit '" ++ hb_name self ++ "' was already checked-off in this week.", db)
                  else Some (increment_tracker db (hb_name self) date)
              | Some false => Some (increment_tracker db (hb_name self) date)
              end
        end
    end
  else Some ("Habit '" ++ hb_name self ++ "' not found. Cannot add event.", db).

(** [DBHabit.delete] *)
Definition habit_delete (self : Habit) (db : Database) : string * Database :=
  if proof_habit db (hb_name self) then
    ("The habit '" ++ hb_name self ++ "' has been deleted.", delete_habit_data db (hb_name self))
  else ("Habit '" ++ hb_name self ++ "' not found or there may be a typo.", db).

(** [DBHabit.reset_in_db] *)
Definition reset_in_db (self : Habit) (db : Database) : string * Database :=
  if proof_habit db (hb_name self) then
    ("All progress for habit '" ++ hb_name self ++ "' has been reset.",
     delete_tracker_data db (hb_name self))
  else ("Habit '" ++ hb_name self ++ "' not found.", db).

(** [DBHabit.update] *)
Definition habit_update (self : Habit) (db : Database)
    (new_name new_description new_periodicity : option string) : option (string * Database) :=
  if negb (proof_habit db (hb_name self)) then
    Some ("Habit '" ++ hb_name self ++ "' does not exist.", db)
  else update_habit db (hb_name self) new_name new_description new_periodicity.

(** ** Invariants of the store *)

(** The foreign key [tracker.habit_name REFERENCES habit (name)]. *)
Definition fk_ok (db : Database) : Prop :=
  forall r, In r (tracker db) -> In (t_habit_name r) (map h_name (habit db)).

(** No two habits share a name up to case (what [add_habit] checks). *)
Definition ci_unique (db : Database) : Prop :=
  NoDup (map (fun h => lower (h_name h)) (habit db)).

(** ** Definitions following the spec's wording, to compare with the code *)

(** Daily adjacency as the spec words it: the calendar date of [current]
    is exactly one calendar day after that of [previous]. *)
Definition spec_next_calendar_day (previous current : datetime) : Prop :=
  toordinal current = toordinal previous + 1.

(** Weekly adjacency as the spec words it, on ISO (year, week) pairs. *)
Definition spec_iso_successor (previous current : Z * Z) : Prop :=
  (fst current = fst previous /\ snd current = snd previous + 1)
  \/ (fst current = fst previous + 1 /\ snd previous = 52 /\ snd current = 1).
(** ** Concrete stores and inputs *)

(** A store holding one daily habit ["read"] checked off once. *)
Definition db_one_checkoff : Database :=
  mkdb [mkhabit 1 "read" "No description" "daily" "2024-12-01 09:00:00"]
       [mktrack (strftime_stamp (mkdt 2024 12 1 7 0 0)) "read"] 2.

(** A store with one habit whose periodicity is ["monthly"], checked off
    on two consecutive days. *)
Definition db_monthly : Database :=
  mkdb [mkhabit 1 "laundry" "No description" "monthly" "2024-12-01 09:00:00"]
       [mktrack (strftime_stamp (mkdt 2024 12 1 7 0 0)) "laundry";
        mktrack (strftime_stamp (mkdt 2024 12 2 7 0 0)) "laundry"] 2.

(** The number [calculate_streak] returns, 0 for any other outcome. *)
Definition streak_value (db : Database) (habit_name : string) : nat :=
  match calculate_streak db habit_name with
  | Streak n => n
  | _ => 0%nat
  end.

Definition elapsed_seconds (previous_date current_date : datetime) : Z :=
  (toordinal current_date - toordinal previous_date) * 86400
  + (day_seconds current_date - day_seconds previous_date).

Definition db_two_checkoffs (first second : datetime) : Database :=
  mkdb [mkhabit 1 "run" "No description" "daily" "2024-12-01 09:00:00"]
       [mktrack (strftime_stamp first) "run"; mktrack (strftime_stamp second) "run"] 2.

Definition december_days : list Z :=
  filter (fun d => negb ((d =? 16) || (d =? 19))) (map Z.of_nat (seq 1 31)).

(** One check-off on each day of [december_days] of year [y], all at the
    same time of day [h:mi:s]. *)
Definition december_checkoffs (y h mi s : Z) : list datetime :=
  map (fun d => mkdt y 12 d h mi s) december_days.

(** The daily habit [workout] with the given check-offs, in rowid order. *)
Definition december_db (checkoffs : list datetime) : Database :=
  mkdb [mkhabit 1 "workout" "Exercise daily" "daily" "2024-12-01 09:00:00"]
       (map (fun t => mktrack (strftime_stamp t) "workout") checkoffs) 2.

(** The days of [december_days] of 2024 at 07:00, except the 15th at 08:00. *)
Definition december_mixed_times : list datetime :=
  map (fun d => mkdt 2024 12 d (if d =? 15 then 8 else 7) 0 0) december_days.

(** ** The dummy data of [Population.populate_dummy_data] *)

Definition add_checkoffs (db : Database) (habit_name : string) (checkoffs : list datetime)
    : Database :=
  fold_left (fun db d => snd (increment_tracker db habit_name (strftime_stamp d))) checkoffs db.

(** [f"2024-12-{day:02d} {h}:00:00" for day in range(1, 31) if day not in excluded] *)
Definition day_range_except (h : Z) (excluded : list Z) : list datetime :=
  map (fun d => mkdt 2024 12 d h 0 0)
    (filter (fun d => negb (existsb (Z.eqb d) excluded)) (map Z.of_nat (seq 1 30))).

Definition populated_db : Database :=
  let db := fold_left (fun db '(n, d, p) => snd (add_habit db n d p "2024-12-01 09:00:00"))
    [("workout", "Exercise daily", "daily"); ("car wash", "Wash the car weekly", "weekly");
     ("meditation", "Meditate every day", "daily"); ("grocery shop", "Shop weekly", "weekly");
     ("studying", "Study 30 minutes daily", "daily")] empty_db in
  let db := add_checkoffs db "workout" (day_range_except 7 [16; 19]) in
  let db := add_checkoffs db "meditation" (day_range_except 7 [6; 13; 19]) in
  let db := add_checkoffs db "studying" (day_range_except 8 [15; 17; 22]) in
  let db := add_checkoffs db "car wash"
    [mkdt 2024 12 2 15 0 0; mkdt 2024 12 9 15 0 0; mkdt 2024 12 23 15 0 0] in
  add_checkoffs db "grocery shop"
    [mkdt 2024 12 2 10 0 0; mkdt 2024 12 9 10 0 0; mkdt 2024 12 16 10 0 0].

(** The store of [test_longest_streak_ties]. *)
Definition ties_db : Database :=
  let db := snd (add_habit empty_db "habit1" "description1" "daily" "2024-12-01 09:00:00") in
  let db := snd (add_habit db "habit2" "description2" "daily" "2024-12-01 09:00:00") in
  fold_left (fun db d => snd (increment_tracker (snd (increment_tracker db "habit1" (strftime_stamp d)))
                                                  "habit2" (strftime_stamp d)))
    [mkdt 2024 12 1 0 0 0; mkdt 2024 12 2 0 0 0; mkdt 2024 12 3 0 0 0] db.

(** A store whose only habit is [workout], with no check-off. *)
Definition db_case_variant : Database :=
  mkdb [mkhabit 1 "workout" "No description" "daily" "2024-12-01 09:00:00"] [] 2.

(** Two habits, [workout] and [run], and one check-off of [run]. *)
Definition db_two_habits : Database :=
  mkdb [mkhabit 1 "workout" "No description" "daily" "2024-12-01 09:00:00";
        mkhabit 2 "run" "No description" "daily" "2024-12-01 09:00:00"]
       [mktrack (strftime_stamp (mkdt 2024 12 2 7 0 0)) "run"] 3.

(** A store in which [workout] was renamed to [Workout] by [update_habit],
    with two check-offs. *)
Definition db_renamed : Database :=
  mkdb [mkhabit 1 "Workout" "No description" "daily" "2024-12-01 09:00:00"]
       [mktrack (strftime_stamp (mkdt 2024 12 1 7 0 0)) "Workout";
        mktrack (strftime_stamp (mkdt 2024 12 2 7 0 0)) "Workout"] 2.

(** ** Properties of the streak loop *)

Section StreakLoop.

Variable periodicity : string.

Lemma streak_step_shape (l c : nat) (previous_date current_date : datetime) :
  streak_step periodicity (l, c) previous_date current_date = (l, S c)
  \/ streak_step periodicity (l, c) previous_date current_date = (Nat.max l c, 1%nat)
  \/ streak_step periodicity (l, c) previous_date current_date = (l, c).
Proof.
  unfold streak_step.
  destruct (String.eqb periodicity "daily");
    [destruct (daily_adjacent previous_date current_date); auto|].
  destruct (String.eqb periodicity "weekly");
    [destruct (weekly_adjacent previous_date current_date); auto|].
  auto.
Qed.

Lemma streak_loop_bound (rest : list datetime) :
  forall l c previous_date,
  let '(l', c') := streak_loop periodicity (l, c) previous_date rest in
  (Nat.max l' c' <= Nat.max l c + List.length rest)%nat /\ ((1 <= c)%nat -> (1 <= c')%nat).
Proof.
  induction rest as [|d rest IH]; intros l c previous_date;
    cbn [streak_loop List.length].
  - lia.
  - destruct (streak_step_shape l c previous_date d) as [E|[E|E]]; rewrite E;
      match goal with |- context [streak_loop _ (?a, ?b) _ _] =>
        specialize (IH a b d) end;
      destruct (streak_loop periodicity _ d rest) as [l' c']; lia.
Qed.

Lemma last_nonempty_default (A : Type) (x : A) (l : list A) (a b : A) :
  last (x :: l) a = last (x :: l) b.
Proof.
  revert x; induction l as [|y l IH]; intros x; [reflexivity|].
  change (last (y :: l) a = last (y :: l) b). apply IH.
Qed.

Lemma streak_loop_snoc (rest : list datetime) (t : datetime) :
  forall st previous_date,
  streak_loop periodicity st previous_date (rest ++ [t])%list =
  streak_step periodicity (streak_loop periodicity st previous_date rest)
    (last rest previous_date) t.
Proof.
  induction rest as [|d rest IH]; intros st previous_date; [reflexivity|].
  simpl app. cbn [streak_loop]. rewrite IH. f_equal.
  destruct rest as [|d' rest]; [reflexivity|].
  change (last (d' :: rest) d = last (d' :: rest) previous_date).
  apply last_nonempty_default.
Qed.

Lemma streak_step_max_mono (st : nat * nat) (previous_date current_date : datetime) :
  (Nat.max (fst st) (snd st) <=
   Nat.max (fst (streak_step periodicity st previous_date current_date))
           (snd (streak_step periodicity st previous_date current_date)))%nat.
Proof.
  destruct st as [l c].
  destruct (streak_step_shape l c previous_date current_date) as [E|[E|E]];
    rewrite E; simpl; lia.
Qed.

End StreakLoop.

(** ** Text order and the two sorts *)

Lemma text_leb_trans (a b c : string) :
  String.leb a b = true -> String.leb b c = true -> String.leb a c = true.
Proof.
  unfold String.leb. revert b c.
  induction a as [|x a IH]; intros [|y b] [|z c]; cbn [String.compare]; intros H1 H2;
    try discriminate; try reflexivity.
  unfold Ascii.compare in *.
  destruct (N.compare_spec (N_of_ascii x) (N_of_ascii y)) as [E1|E1|E1];
  destruct (N.compare_spec (N_of_ascii y) (N_of_ascii z)) as [E2|E2|E2];
  destruct (N.compare_spec (N_of_ascii x) (N_of_ascii z)) as [E3|E3|E3];
    try discriminate; try lia; try reflexivity.
  exact (IH b c H1 H2).
Qed.

Lemma text_leb_false (a b : string) : String.leb a b = false -> String.leb b a = true.
Proof. intros H. destruct (String.leb_total a b) as [E|E]; [congruence | exact E]. Qed.

Lemma text_append_assoc (a b c : string) : (a ++ b) ++ c = a ++ (b ++ c).
Proof. induction a as [|x a IH]; simpl; [reflexivity | rewrite IH; reflexivity]. Qed.

Lemma text_compare_prefix (p a b : string) :
  String.compare (p ++ a) (p ++ b) = String.compare a b.
Proof.
  induction p as [|c p IH]; [reflexivity|]. cbn [append String.compare].
  unfold Ascii.compare. rewrite N.compare_refl. exact IH.
Qed.

Lemma insert_stamp_In (x y : stamp) (l : list stamp) :
  In y (insert_stamp x l) -> y = x \/ In y l.
Proof.
  induction l as [|z l IH]; simpl; [intros [<-|[]]; auto|].
  destruct (String.leb (st_text z) (st_text x)); simpl; intros [<-|H]; auto.
  destruct (IH H); auto.
Qed.

Lemma sort_stamps_In (l acc : list stamp) (y : stamp) :
  In y (fold_left (fun acc x => insert_stamp x acc) l acc) -> In y l \/ In y acc.
Proof.
  revert acc. induction l as [|x l IH]; intros acc H; [auto|]. simpl in H.
  destruct (IH _ H) as [H'|H']; [left; right; exact H'|].
  destruct (insert_stamp_In x y acc H') as [<-|H'']; [left; left; reflexivity | auto].
Qed.

Lemma length_insert_stamp (x : stamp) (l : list stamp) :
  List.length (insert_stamp x l) = S (List.length l).
Proof.
  induction l as [|y l IH]; simpl; [reflexivity|].
  destruct (String.leb (st_text y) (st_text x)); simpl; auto.
Qed.

Lemma length_fold_insert (l acc : list stamp) :
  List.length (fold_left (fun acc x => insert_stamp x acc) l acc)
  = (List.length l + List.length acc)%nat.
Proof.
  revert acc. induction l as [|x l IH]; intros acc; [reflexivity|]. simpl.
  rewrite IH, length_insert_stamp. lia.
Qed.

Lemma length_select_check_off_dates (db : Database) (habit_name : string) :
  List.length (select_check_off_dates db habit_name) = List.length (check_offs db habit_name).
Proof.
  unfold select_check_off_dates, sort_stamps.
  rewrite length_map, length_fold_insert, length_map. simpl. lia.
Qed.

(** A stamp whose text is no smaller than every text of [acc] goes last. *)
Lemma insert_stamp_last (x : stamp) (acc : list stamp) :
  (forall y, In y acc -> String.leb (st_text y) (st_text x) = true) ->
  insert_stamp x acc = (acc ++ [x])%list.
Proof.
  induction acc as [|y acc IH]; intros H; [reflexivity|]. simpl.
  rewrite (H y (or_introl eq_refl)). f_equal. apply IH. intros z Hz. apply H. right. exact Hz.
Qed.

Lemma sort_stamps_snoc (l : list stamp) (t : stamp) :
  (forall y, In y l -> String.leb (st_text y) (st_text t) = true) ->
  sort_stamps (l ++ [t])%list = (sort_stamps l ++ [t])%list.
Proof.
  intros H. unfold sort_stamps. rewrite fold_left_app. simpl.
  apply insert_stamp_last. intros y Hy.
  destruct (sort_stamps_In l [] y Hy) as [Hl|[]]. apply H, Hl.
Qed.

(** Consecutive texts in order. *)
Fixpoint texts_sorted (l : list string) : bool :=
  match l with
  | a :: (b :: _) as l' => String.leb a b && texts_sorted l'
  | _ => true
  end.

Lemma texts_sorted_before (acc : list string) (x : string) (l : list string) :
  texts_sorted (acc ++ x :: l)%list = true -> forall y, In y acc -> String.leb y x = true.
Proof.
  induction acc as [|a acc IH]; intros H y Hy; [destruct Hy|].
  assert (Ht : texts_sorted (acc ++ x :: l)%list = true)
    by (destruct acc; simpl in H |- *; apply andb_prop in H; apply H).
  destruct Hy as [<-|Hy]; [|exact (IH Ht y Hy)].
  destruct acc as [|b acc].
  - simpl in H. apply andb_prop in H. apply H.
  - simpl in H. apply andb_prop in H. destruct H as [Hab _].
    apply (text_leb_trans _ b); [exact Hab|]. apply (IH Ht). left. reflexivity.
Qed.

(** Stamps already in text order are left as they are. *)
Lemma sort_stamps_sorted (l : list stamp) :
  texts_sorted (map st_text l) = true -> sort_stamps l = l.
Proof.
  unfold sort_stamps. change l with ([] ++ l)%list at 1 3. generalize (@nil stamp) as acc.
  induction l as [|x l IH]; intros acc H; [simpl; rewrite app_nil_r; reflexivity|]. simpl.
  rewrite insert_stamp_last.
  - rewrite IH; [rewrite <- app_assoc; reflexivity|]. rewrite <- app_assoc. exact H.
  - intros y Hy. rewrite map_app in H. cbn [map] in H.
    apply (texts_sorted_before _ _ _ H). apply in_map, Hy.
Qed.

Lemma texts_sorted_prefix (p : string) (l : list string) :
  texts_sorted (map (fun a => p ++ a) l) = texts_sorted l.
Proof.
  induction l as [|a l IH]; [reflexivity|]. destruct l as [|b l]; [reflexivity|].
  change (String.leb (p ++ a) (p ++ b) && texts_sorted (map (fun a => p ++ a) (b :: l))
          = String.leb a b && texts_sorted (b :: l)).
  rewrite IH. unfold String.leb. rewrite text_compare_prefix. reflexivity.
Qed.

Lemma HdRel_insert_name (a x : string) (l : list string) :
  HdRel (fun a b => String.leb a b = true) a l -> String.leb a x = true ->
  HdRel (fun a b => String.leb a b = true) a (insert_name x l).
Proof.
  intros H Hax. destruct l as [|y l]; simpl; [constructor; exact Hax|].
  destruct (String.leb y x); constructor; [inversion H; assumption | exact Hax].
Qed.

Lemma insert_name_sorted (x : string) (l : list string) :
  Sorted (fun a b => String.leb a b = true) l ->
  Sorted (fun a b => String.leb a b = true) (insert_name x l).
Proof.
  induction l as [|y l IH]; intros H; simpl; [repeat constructor|].
  apply Sorted_inv in H. destruct H as [Hs Hd].
  destruct (String.leb y x) eqn:E.
  - constructor; [exact (IH Hs)|]. apply HdRel_insert_name; assumption.
  - constructor; [constructor; assumption|]. constructor. apply text_leb_false, E.
Qed.

Lemma insert_name_perm (x : string) (l : list string) : Permutation (insert_name x l) (x :: l).
Proof.
  induction l as [|y l IH]; simpl; [reflexivity|].
  destruct (String.leb y x); [|reflexivity].
  transitivity (y :: x :: l); [constructor; exact IH | constructor].
Qed.

Lemma select_names_perm (db : Database) : Permutation (select_names db) (map h_name (habit db)).
Proof.
  unfold select_names. induction (map h_name (habit db)) as [|x l IH]; [reflexivity|].
  simpl. rewrite insert_name_perm. constructor. exact IH.
Qed.

Lemma select_names_sorted (db : Database) :
  Sorted (fun a b => String.leb a b = true) (select_names db).
Proof.
  unfold select_names. induction (map h_name (habit db)) as [|x l IH]; [constructor|].
  simpl. apply insert_name_sorted, IH.
Qed.

Lemma longest_streak_of_bounds (periodicity : string) (ds : list datetime) :
  (longest_streak_of periodicity ds <= List.length ds)%nat
  /\ (longest_streak_of periodicity ds = 0%nat <-> ds = []).
Proof.
  destruct ds as [|d rest]; simpl; [split; [lia | tauto]|].
  pose proof (streak_loop_bound periodicity rest 0 1 d) as H.
  destruct (streak_loop periodicity (0%nat, 1%nat) d rest) as [l' c'].
  split; [lia|]. split; [lia | discriminate].
Qed.

Lemma longest_streak_of_snoc (periodicity : string) (ds : list datetime) (t : datetime) :
  (longest_streak_of periodicity ds <= longest_streak_of periodicity (ds ++ [t])%list)%nat.
Proof.
  destruct ds as [|d rest]; simpl; [lia|].
  rewrite streak_loop_snoc.
  pose proof (streak_step_max_mono periodicity
    (streak_loop periodicity (0%nat, 1%nat) d rest) (last rest d) t) as H.
  destruct (streak_loop periodicity (0%nat, 1%nat) d rest) as [l c].
  destruct (streak_step periodicity (l, c) (last rest d) t) as [l' c'].
  exact H.
Qed.

Lemma proof_habit_In (db : Database) (h : habit_row) :
  In h (habit db) -> proof_habit db (h_name h) = true.
Proof.
  intros Hin. unfold proof_habit. apply existsb_exists.
  exists h. split; [exact Hin | apply String.eqb_refl].
Qed.

Lemma select_periodicity_In (db : Database) (h : habit_row) :
  In h (habit db) -> exists p, select_periodicity db (h_name h) = Some p.
Proof.
  intros Hin. unfold select_periodicity.
  destruct (find (fun h' => String.eqb (h_name h') (h_name h)) (habit db)) as [h'|] eqn:E.
  - eexists; reflexivity.
  - exfalso. pose proof (find_none _ _ E h Hin) as F. simpl in F.
    rewrite String.eqb_refl in F. discriminate.
Qed.

Lemma proof_habit_false_iff (db : Database) (habit_name : string) :
  proof_habit db habit_name = false <->
  (forall h, In h (habit db) -> lower (h_name h) <> lower habit_name).
Proof.
  unfold proof_habit. split.
  - intros E h Hin Heq.
    assert (T : existsb (fun h => String.eqb (lower (h_name h)) (lower habit_name)) (habit db) = true).
    { apply existsb_exists. exists h. split; [exact Hin|]. apply String.eqb_eq. exact Heq. }
    congruence.
  - intros H. destruct (existsb _ _) eqn:E; [|reflexivity].
    apply existsb_exists in E. destruct E as [h [Hin Heq]].
    apply String.eqb_eq in Heq. exfalso. exact (H h Hin Heq).
Qed.

(** Shape of [calculate_streak] on a name that [proof_habit] finds. *)
Lemma calculate_streak_found (db : Database) (habit_name : string) :
  proof_habit db habit_name = true ->
  calculate_streak db habit_name =
  match select_check_off_dates db habit_name with
  | [] => Streak 0
  | ds => match select_periodicity db habit_name with
          | None => TypeError
          | Some p => Streak (longest_streak_of p ds)
          end
  end.
Proof.
  intros H. unfold calculate_streak. rewrite H.
  destruct (select_check_off_dates db habit_name); reflexivity.
Qed.

(** ** Claims about [calculate_streak] *)

(** C5: for an existing habit, [calculate_streak] returns 0 when the habit
    has no check-off row and 1 when it has exactly one, whatever its
    periodicity (so for daily and for weekly habits). *)
Theorem calculate_streak_zero_or_one (db : Database) (h : habit_row) :
  In h (habit db) ->
  (List.length (check_offs db (h_name h)) = 0%nat -> calculate_streak db (h_name h) = Streak 0)
  /\ (List.length (check_offs db (h_name h)) = 1%nat -> calculate_streak db (h_name h) = Streak 1).
Proof.
  intros Hin.
  rewrite (calculate_streak_found db (h_name h) (proof_habit_In db h Hin)).
  destruct (select_periodicity_In db h Hin) as [p Hp]. rewrite Hp.
  rewrite <- (length_select_check_off_dates db (h_name h)).
  destruct (select_check_off_dates db (h_name h)) as [|d [|d' rest]];
    simpl; split; intros E; try discriminate; reflexivity.
Qed.

Lemma calculate_streak_zero_or_one_witness :
  In (mkhabit 1 "read" "No description" "daily" "2024-12-01 09:00:00") (habit db_one_checkoff)
  /\ calculate_streak db_one_checkoff "read" = Streak 1.
Proof.
  split; [left; reflexivity|].
  apply (calculate_streak_zero_or_one db_one_checkoff
           (mkhabit 1 "read" "No description" "daily" "2024-12-01 09:00:00"));
    [left; reflexivity | reflexivity].
Defined.

(** C6: [calculate_streak] returns the not-found message exactly when no
    habit record matches the name (case-insensitively, as
    [proof_habit] matches); that message is never a streak. *)
Theorem calculate_streak_not_found (db : Database) (habit_name : string) :
  ((forall h, In h (habit db) -> lower (h_name h) <> lower habit_name) <->
   calculate_streak db habit_name = Message (not_found_message habit_name))
  /\ (forall n, Message (not_found_message habit_name) <> Streak n).
Proof.
  split; [|discriminate].
  rewrite <- proof_habit_false_iff. split.
  - intros E. unfold calculate_streak. rewrite E. reflexivity.
  - intros E. destruct (proof_habit db habit_name) eqn:P; [|reflexivity].
    rewrite (calculate_streak_found db habit_name P) in E.
    destruct (select_check_off_dates db habit_name); [discriminate|].
    destruct (select_periodicity db habit_name); discriminate.
Qed.

(** C9: a streak returned by [calculate_streak] lies between 0 and the
    number of check-off rows of the habit, and is 0 exactly when there is
    no check-off row. *)
Theorem calculate_streak_bounds (db : Database) (habit_name : string) (n : nat) :
  calculate_streak db habit_name = Streak n ->
  (0 <= n <= List.length (check_offs db habit_name))%nat
  /\ (n = 0%nat <-> check_offs db habit_name = []).
Proof.
  intros E. unfold calculate_streak in E.
  destruct (proof_habit db habit_name); [|discriminate].
  rewrite <- (length_select_check_off_dates db habit_name).
  assert (K : check_offs db habit_name = [] <-> select_check_off_dates db habit_name = []).
  { rewrite <- !length_zero_iff_nil, length_select_check_off_dates. reflexivity. }
  rewrite K.
  destruct (select_check_off_dates db habit_name) as [|d rest] eqn:Hs.
  - injection E as <-. simpl. split; [lia | tauto].
  - destruct (select_periodicity db habit_name) as [p|]; [|discriminate].
    injection E as <-.
    destruct (longest_streak_of_bounds p (d :: rest)) as [B HZ].
    split; [simpl in B |- *; lia|]. rewrite HZ. reflexivity.
Qed.

Lemma calculate_streak_bounds_witness :
  calculate_streak db_one_checkoff "read" = Streak 1
  /\ (0 <= 1 <= List.length (check_offs db_one_checkoff "read"))%nat
  /\ (1%nat = 0%nat <-> check_offs db_one_checkoff "read" = []).
Proof.
  split; [reflexivity|].
  apply (calculate_streak_bounds db_one_checkoff "read" 1). reflexivity.
Defined.

(** C10: appending one further check-off at the end of the ordered
    sequence never lowers the longest streak. *)
Theorem longest_streak_monotone_snoc (periodicity : string) (ds : list datetime) (t : datetime) :
  (longest_streak_of periodicity ds <= longest_streak_of periodicity (ds ++ [t])%list)%nat.
Proof. apply longest_streak_of_snoc. Qed.

(** C2 (counterexample): for a habit whose periodicity is neither
    ["daily"] nor ["weekly"], [calculate_streak] does not refuse: it
    returns the number 1. *)
Lemma calculate_streak_unknown_periodicity_counterexample :
  select_periodicity db_monthly "laundry" = Some "monthly"
  /\ calculate_streak db_monthly "laundry" = Streak 1.
Proof. split; reflexivity. Qed.

Lemma streak_loop_unknown (periodicity : string) (st : nat * nat) (previous_date : datetime)
    (rest : list datetime) :
  periodicity <> "daily" -> periodicity <> "weekly" ->
  streak_loop periodicity st previous_date rest = st.
Proof.
  intros Hd Hw. revert st previous_date.
  induction rest as [|d rest IH]; intros st previous_date; [reflexivity|].
  cbn [streak_loop]. rewrite IH. destruct st as [l c]. unfold streak_step.
  apply String.eqb_neq in Hd, Hw. rewrite Hd, Hw. reflexivity.
Qed.

(** C2 (amended): for an existing habit whose stored periodicity is
    neither ["daily"] nor ["weekly"], [calculate_streak] computes no error:
    it returns the streak 0 without check-offs and 1 otherwise. *)
Theorem calculate_streak_unknown_periodicity (db : Database) (habit_name p : string) :
  proof_habit db habit_name = true ->
  select_periodicity db habit_name = Some p ->
  p <> "daily" -> p <> "weekly" ->
  calculate_streak db habit_name =
  Streak (Nat.min 1 (List.length (check_offs db habit_name))).
Proof.
  intros Hf Hp Hd Hw. rewrite (calculate_streak_found db habit_name Hf), Hp.
  rewrite <- (length_select_check_off_dates db habit_name).
  destruct (select_check_off_dates db habit_name) as [|d rest]; [reflexivity|].
  unfold longest_streak_of. rewrite (streak_loop_unknown p); auto.
Qed.

Lemma calculate_streak_unknown_periodicity_witness :
  calculate_streak db_monthly "laundry" = Streak 1.
Proof.
  apply (calculate_streak_unknown_periodicity db_monthly "laundry" "monthly");
    [reflexivity | reflexivity | discriminate | discriminate].
Defined.

(** ** Claims about [longest_streak_across] *)

Lemma calculate_streak_In (db : Database) (habit_name : string) :
  In habit_name (map h_name (habit db)) ->
  calculate_streak db habit_name = Streak (streak_value db habit_name).
Proof.
  intros Hin. apply in_map_iff in Hin. destruct Hin as [h [<- Hin]].
  unfold streak_value.
  rewrite (calculate_streak_found db (h_name h) (proof_habit_In db h Hin)).
  destruct (select_periodicity_In db h Hin) as [p Hp]. rewrite Hp.
  destruct (select_check_off_dates db (h_name h)); reflexivity.
Qed.

Lemma filter_streak_none (pre : list (string * nat)) (m k : nat) :
  (forall x, In x pre -> (snd x <= m)%nat) -> (m < k)%nat ->
  filter (fun p => Nat.eqb (snd p) k) pre = [].
Proof.
  intros Hle Hlt. induction pre as [|x pre IH]; [reflexivity|]. simpl.
  destruct (Nat.eqb_spec (snd x) k) as [E|E].
  - specialize (Hle x (or_introl eq_refl)). lia.
  - apply IH. intros y Hy. apply Hle. right. exact Hy.
Qed.

Lemma across_loop_spec (db : Database) (all_habits : list string) :
  (forall n, In n all_habits -> calculate_streak db n = Streak (streak_value db n)) ->
  forall pre m acc,
  (forall x, In x pre -> (snd x <= m)%nat) ->
  acc = filter (fun p => Nat.eqb (snd p) m) pre ->
  let M := Nat.max m (list_max (map (streak_value db) all_habits)) in
  across_loop db m acc all_habits =
  Some (M, filter (fun p => Nat.eqb (snd p) M)
             (pre ++ map (fun n => (n, streak_value db n)) all_habits)%list).
Proof.
  induction all_habits as [|n rest IH]; intros Hall pre m acc Hle Hacc M; subst M.
  - simpl. rewrite Nat.max_0_r, app_nil_r, <- Hacc. reflexivity.
  - cbn [across_loop]. rewrite (Hall n (or_introl eq_refl)).
    assert (Hrest : forall n', In n' rest -> calculate_streak db n' = Streak (streak_value db n')).
    { intros n' H'. apply Hall. right. exact H'. }
    set (k := streak_value db n).
    replace (pre ++ map (fun n => (n, streak_value db n)) (n :: rest))%list
      with ((pre ++ [(n, k)]) ++ map (fun n => (n, streak_value db n)) rest)%list
      by (rewrite <- app_assoc; reflexivity).
    cbn [map]. fold k.
    change (list_max (k :: map (streak_value db) rest))
      with (Nat.max k (list_max (map (streak_value db) rest))).
    set (L := list_max (map (streak_value db) rest)).
    assert (Hsnoc : forall x, In x (pre ++ [(n, k)])%list -> (snd x <= Nat.max m k)%nat).
    { intros x Hx. apply in_app_or in Hx. destruct Hx as [Hx|[<-|[]]].
      - specialize (Hle x Hx). lia.
      - simpl. lia. }
    destruct (Nat.ltb_spec m k) as [Hlt|Hge].
    + rewrite (IH Hrest (pre ++ [(n, k)])%list k [(n, k)]).
      * replace (Nat.max m (Nat.max k L)) with (Nat.max k L) by lia. reflexivity.
      * intros x Hx. specialize (Hsnoc x Hx). lia.
      * rewrite filter_app, (filter_streak_none pre m k Hle Hlt). simpl.
        rewrite Nat.eqb_refl. reflexivity.
    + destruct (Nat.eqb_spec k m) as [Heq|Hne].
      * rewrite (IH Hrest (pre ++ [(n, k)])%list m (acc ++ [(n, k)])%list).
        -- replace (Nat.max m (Nat.max k L)) with (Nat.max m L) by lia. reflexivity.
        -- intros x Hx. specialize (Hsnoc x Hx). lia.
        -- rewrite filter_app, Hacc. simpl. rewrite Heq, Nat.eqb_refl. reflexivity.
      * rewrite (IH Hrest (pre ++ [(n, k)])%list m acc).
        -- replace (Nat.max m (Nat.max k L)) with (Nat.max m L) by lia. reflexivity.
        -- intros x Hx. specialize (Hsnoc x Hx). lia.
        -- rewrite filter_app, Hacc. simpl.
           destruct (Nat.eqb_spec k m); [contradiction|]. rewrite app_nil_r. reflexivity.
Qed.

(** C4: [longest_streak_across] raises nothing and returns exactly the
    (name, streak) pairs of the habits whose streak is the maximum streak
    over all habits, in the order in which [SELECT name FROM habit] lists
    the names (byte order of the names, a permutation of the habit table);
    an empty habit table gives the empty list, and when every streak is 0
    every habit is returned tied at 0. *)
Theorem longest_streak_across_spec (db : Database) :
  let all_habits := select_names db in
  let pairs := map (fun n => (n, streak_value db n)) all_habits in
  let M := list_max (map snd pairs) in
  Permutation all_habits (map h_name (habit db))
  /\ Sorted (fun a b => String.leb a b = true) all_habits
  /\ (forall n, In n all_habits -> calculate_streak db n = Streak (streak_value db n))
  /\ longest_streak_across db = Some (filter (fun p => Nat.eqb (snd p) M) pairs)
  /\ (forall p, In p (filter (fun p => Nat.eqb (snd p) M) pairs) -> snd p = M)
  /\ (habit db = [] -> longest_streak_across db = Some [])
  /\ (M = 0%nat -> longest_streak_across db = Some pairs).
Proof.
  intros all_habits pairs M.
  assert (Hperm : Permutation all_habits (map h_name (habit db))) by apply select_names_perm.
  assert (Hall : forall n, In n all_habits -> calculate_streak db n = Streak (streak_value db n)).
  { intros n Hn. apply calculate_streak_In. exact (Permutation_in _ Hperm Hn). }
  assert (HM : M = list_max (map (streak_value db) all_habits)).
  { subst M pairs. rewrite map_map. reflexivity. }
  assert (Hres : longest_streak_across db = Some (filter (fun p => Nat.eqb (snd p) M) pairs)).
  { unfold longest_streak_across. fold all_habits.
    rewrite (across_loop_spec db all_habits Hall [] 0 [])
      by (simpl; tauto || reflexivity).
    simpl. rewrite HM. reflexivity. }
  split; [exact Hperm|]. split; [apply select_names_sorted|].
  split; [exact Hall|]. split; [exact Hres|]. split.
  - intros p Hp. apply filter_In in Hp. destruct Hp as [_ Hp].
    apply Nat.eqb_eq. exact Hp.
  - split.
    + intros E. rewrite Hres. subst pairs all_habits. unfold select_names. rewrite E. reflexivity.
    + intros E. rewrite Hres. f_equal. apply forallb_filter_id.
      apply forallb_forall. intros p Hp.
      assert (Hle : (snd p <= M)%nat).
      { subst M.
        pose proof (proj1 (list_max_le (map snd pairs) (list_max (map snd pairs))) (le_n _)) as F.
        rewrite Forall_forall in F. apply F, in_map, Hp. }
      apply Nat.eqb_eq. lia.
Qed.

(** ** Adjacency tests *)

(** The daily test holds exactly when between 24 and 48 hours (the latter
    excluded) separate the two timestamps. *)
Lemma daily_adjacent_iff (previous_date current_date : datetime) :
  daily_adjacent previous_date current_date = true <->
  86400 <= elapsed_seconds previous_date current_date < 172800.
Proof.
  unfold daily_adjacent, sub_days. fold (elapsed_seconds previous_date current_date).
  set (a := elapsed_seconds previous_date current_date).
  rewrite Z.eqb_eq.
  pose proof (Z.div_mod a 86400 ltac:(lia)) as Hdm.
  pose proof (Z.mod_pos_bound a 86400 ltac:(lia)) as Hb.
  split; intros H; lia.
Qed.

(** C1 (code_bug): the daily branch compares [(current - previous).days]
    with 1, i.e. elapsed time, not calendar dates.  Check-offs at 23:00 on
    1 December and 08:00 on 2 December fall on consecutive calendar days
    but give the streak 1; check-offs at 08:00 on 1 December and 07:00 on
    3 December do not, yet give the streak 2. *)
Theorem daily_streak_elapsed_not_calendar :
  spec_next_calendar_day (mkdt 2024 12 1 23 0 0) (mkdt 2024 12 2 8 0 0)
  /\ calculate_streak (db_two_checkoffs (mkdt 2024 12 1 23 0 0) (mkdt 2024 12 2 8 0 0)) "run"
     = Streak 1
  /\ ~ spec_next_calendar_day (mkdt 2024 12 1 8 0 0) (mkdt 2024 12 3 7 0 0)
  /\ calculate_streak (db_two_checkoffs (mkdt 2024 12 1 8 0 0) (mkdt 2024 12 3 7 0 0)) "run"
     = Streak 2.
Proof.
  unfold spec_next_calendar_day.
  split; [reflexivity|]. split; [reflexivity|]. split; [|reflexivity].
  vm_compute. discriminate.
Qed.

Lemma weekly_adjacent_iff (previous_date current_date : datetime) :
  weekly_adjacent previous_date current_date = true <->
  spec_iso_successor (isocalendar previous_date) (isocalendar current_date).
Proof.
  unfold weekly_adjacent, spec_iso_successor.
  destruct (isocalendar current_date) as [cy cw], (isocalendar previous_date) as [py pw].
  simpl. rewrite orb_true_iff, !andb_true_iff, !Z.eqb_eq. tauto.
Qed.

(** C3: in the weekly branch, a consecutive pair extends the current run
    exactly when the ISO (year, week) of the current timestamp is the
    successor of the previous one (same year and next week, or week 52 of
    a year followed by week 1 of the next); otherwise the run is folded
    into the longest and reset to 1. *)
Theorem weekly_step_iso_successor (l c : nat) (previous_date current_date : datetime) :
  (spec_iso_successor (isocalendar previous_date) (isocalendar current_date) ->
   streak_step "weekly" (l, c) previous_date current_date = (l, S c))
  /\ (~ spec_iso_successor (isocalendar previous_date) (isocalendar current_date) ->
      streak_step "weekly" (l, c) previous_date current_date = (Nat.max l c, 1%nat)).
Proof.
  unfold streak_step. cbn [String.eqb Ascii.eqb Bool.eqb andb].
  pose proof (weekly_adjacent_iff previous_date current_date) as H.
  destruct (weekly_adjacent previous_date current_date).
  - split; [reflexivity|]. intros N. exfalso. apply N, H. reflexivity.
  - split; [|reflexivity]. intros S. apply H in S. discriminate.
Qed.

Lemma weekly_step_iso_successor_witness :
  spec_iso_successor (isocalendar (mkdt 2024 12 23 15 0 0)) (isocalendar (mkdt 2024 12 30 15 0 0))
  /\ streak_step "weekly" (0%nat, 1%nat) (mkdt 2024 12 23 15 0 0) (mkdt 2024 12 30 15 0 0)
     = (0%nat, 2%nat).
Proof.
  assert (S : spec_iso_successor (isocalendar (mkdt 2024 12 23 15 0 0))
                (isocalendar (mkdt 2024 12 30 15 0 0))).
  { vm_compute. right. repeat split. }
  split; [exact S|].
  exact (proj1 (weekly_step_iso_successor 0 1 _ _) S).
Defined.

(** ** The December scenario *)

Lemma daily_adjacent_same_time (y m h mi s d1 d2 : Z) :
  daily_adjacent (mkdt y m d1 h mi s) (mkdt y m d2 h mi s) = (d2 - d1 =? 1).
Proof.
  unfold daily_adjacent, sub_days, toordinal, day_seconds, ymd2ord.
  cbn [dt_year dt_month dt_day dt_hour dt_minute dt_second].
  replace ((days_before_year y + days_before_month y m + d2
            - (days_before_year y + days_before_month y m + d1)) * 86400
           + (h * 3600 + mi * 60 + s - (h * 3600 + mi * 60 + s)))
    with ((d2 - d1) * 86400) by ring.
  rewrite Z.div_mul by lia. reflexivity.
Qed.

Lemma streak_step_daily (l c : nat) (previous_date current_date : datetime) :
  streak_step "daily" (l, c) previous_date current_date =
  if daily_adjacent previous_date current_date then (l, S c) else (Nat.max l c, 1%nat).
Proof. reflexivity. Qed.

Lemma streak_loop_daily_same_time (y m h mi s y' m' h' mi' s' : Z) (ds : list Z) :
  forall st d0,
  streak_loop "daily" st (mkdt y m d0 h mi s) (map (fun d => mkdt y m d h mi s) ds) =
  streak_loop "daily" st (mkdt y' m' d0 h' mi' s') (map (fun d => mkdt y' m' d h' mi' s') ds).
Proof.
  induction ds as [|d ds IH]; intros [l c] d0; [reflexivity|].
  cbn [map streak_loop]. rewrite !streak_step_daily, !daily_adjacent_same_time.
  destruct (d - d0 =? 1); apply IH.
Qed.

Lemma longest_streak_of_daily_same_time (y m h mi s y' m' h' mi' s' : Z) (ds : list Z) :
  longest_streak_of "daily" (map (fun d => mkdt y m d h mi s) ds) =
  longest_streak_of "daily" (map (fun d => mkdt y' m' d h' mi' s') ds).
Proof.
  destruct ds as [|d0 ds]; [reflexivity|]. cbn [map]. unfold longest_streak_of.
  rewrite (streak_loop_daily_same_time y m h mi s y' m' h' mi' s'). reflexivity.
Qed.

Lemma filter_all_true (A : Type) (f : A -> bool) (l : list A) :
  (forall x, In x l -> f x = true) -> filter f l = l.
Proof.
  induction l as [|x l IH]; intros H; [reflexivity|]. simpl.
  rewrite (H x (or_introl eq_refl)). f_equal. apply IH. intros y Hy. apply H. right. exact Hy.
Qed.

Lemma format_datetime_december (y d h mi s : Z) :
  format_datetime (mkdt y 12 d h mi s)
  = zpad 4 y ++ ("-12-" ++ zpad 2 d ++ " " ++ zpad 2 h ++ ":" ++ zpad 2 mi ++ ":" ++ zpad 2 s).
Proof.
  unfold format_datetime, format_date. cbn [dt_year dt_month dt_day dt_hour dt_minute dt_second].
  rewrite text_append_assoc. reflexivity.
Qed.

(** The texts of [december_checkoffs] come in text order, whatever the year
    and the (shared) time of day. *)
Lemma december_texts_sorted (y h mi s : Z) :
  texts_sorted (map st_text (map strftime_stamp (december_checkoffs y h mi s))) = true.
Proof.
  unfold december_checkoffs. rewrite !map_map.
  erewrite map_ext by (intros d; cbn [st_text strftime_stamp]; apply format_datetime_december).
  rewrite <- (map_map (fun d => "-12-" ++ zpad 2 d ++ " " ++ zpad 2 h ++ ":" ++ zpad 2 mi
    ++ ":" ++ zpad 2 s) (fun a => zpad 4 y ++ a)), texts_sorted_prefix.
  generalize (" " ++ zpad 2 h ++ ":" ++ zpad 2 mi ++ ":" ++ zpad 2 s) as T. intros T.
  vm_compute. reflexivity.
Qed.

Lemma calculate_streak_december_db (ds : list datetime) :
  texts_sorted (map st_text (map strftime_stamp ds)) = true -> ds <> [] ->
  calculate_streak (december_db ds) "workout" = Streak (longest_streak_of "daily" ds).
Proof.
  intros Hs Hne.
  assert (Hc : map t_check_of_date (check_offs (december_db ds) "workout") = map strftime_stamp ds).
  { unfold check_offs, december_db. cbn [tracker]. rewrite filter_all_true.
    - rewrite map_map. reflexivity.
    - intros r Hr. apply in_map_iff in Hr. destruct Hr as [t [<- _]]. reflexivity. }
  unfold calculate_streak. cbn [proof_habit december_db habit existsb].
  unfold select_check_off_dates. rewrite Hc, (sort_stamps_sorted _ Hs), map_map.
  cbn [st_time strftime_stamp]. rewrite map_id.
  destruct ds as [|d ds]; [contradiction | reflexivity].
Qed.

(** C7 (code_bug): for a daily habit checked off once on every day of
    December except the 16th and the 19th, [calculate_streak] returns 15
    when all check-offs are at one and the same time of day (any year; the
    loop ends with longest 15 and the open run 12 of days 20-31, which line
    132 folds in).  With other times it need not: at 07:00 every day but
    08:00 on the 15th, 47 hours separate the 15th and the 17th, so
    [(current - previous).days == 1] joins the runs of days 1-15 and 17-18
    across the missing calendar day 16, and the result is 17. *)
Theorem december_streak_time_of_day (y h mi s : Z) :
  calculate_streak (december_db (december_checkoffs y h mi s)) "workout" = Streak 15
  /\ streak_loop "daily" (0%nat, 1%nat) (mkdt 2024 12 1 7 0 0) (tl (december_checkoffs 2024 7 0 0))
     = (15%nat, 12%nat)
  /\ ~ spec_next_calendar_day (mkdt 2024 12 15 8 0 0) (mkdt 2024 12 17 7 0 0)
  /\ daily_adjacent (mkdt 2024 12 15 8 0 0) (mkdt 2024 12 17 7 0 0) = true
  /\ calculate_streak (december_db december_mixed_times) "workout" = Streak 17.
Proof.
  split; [|split; [vm_compute; reflexivity|]].
  - rewrite calculate_streak_december_db
      by (apply december_texts_sorted || (unfold december_checkoffs; discriminate)).
    unfold december_checkoffs.
    rewrite (longest_streak_of_daily_same_time y 12 h mi s 2024 12 7 0 0).
    vm_compute. reflexivity.
  - split; [unfold spec_next_calendar_day; vm_compute; discriminate|].
    split; vm_compute; reflexivity.
Qed.

(** ** Claims about [add_habit] *)

Lemma lower_char_idem (c : ascii) : lower_char (lower_char c) = lower_char c.
Proof. destruct c as [[] [] [] [] [] [] [] []]; reflexivity. Qed.

Lemma is_space_lower_char (c : ascii) : is_space (lower_char c) = is_space c.
Proof. destruct c as [[] [] [] [] [] [] [] []]; reflexivity. Qed.

Lemma lower_idem (s : string) : lower (lower s) = lower s.
Proof. induction s as [|c s IH]; simpl; [reflexivity|]. rewrite lower_char_idem, IH. reflexivity. Qed.

Lemma list_ascii_of_string_lower (s : string) :
  list_ascii_of_string (lower s) = map lower_char (list_ascii_of_string s).
Proof. induction s as [|c s IH]; simpl; [reflexivity|]. rewrite IH. reflexivity. Qed.

Lemma string_of_list_ascii_map_lower (l : list ascii) :
  string_of_list_ascii (map lower_char l) = lower (string_of_list_ascii l).
Proof. induction l as [|c l IH]; simpl; [reflexivity|]. rewrite IH. reflexivity. Qed.

Lemma drop_spaces_map_lower (l : list ascii) :
  drop_spaces (map lower_char l) = map lower_char (drop_spaces l).
Proof.
  induction l as [|c l IH]; simpl; [reflexivity|].
  rewrite is_space_lower_char. destruct (is_space c); [exact IH | reflexivity].
Qed.

(** Lower-casing commutes with stripping. *)
Lemma lower_strip (s : string) : lower (strip s) = strip (lower s).
Proof.
  unfold strip. rewrite list_ascii_of_string_lower, drop_spaces_map_lower,
    <- map_rev, drop_spaces_map_lower, <- map_rev, string_of_list_ascii_map_lower.
  reflexivity.
Qed.

(** C8: when the normalised name [lower (strip name)] is non-empty and no
    stored habit matches it case-insensitively, [add_habit] appends one row
    whose name is that normalised name and whose description is
    ["No description"] if the given one is blank; after that, any further
    [add_habit] whose normalised name [lower (strip name2)] is non-empty and
    matches a stored habit (the new one or any other) case-insensitively is
    rejected as a duplicate and leaves the store unchanged. *)
Theorem add_habit_normalises_and_rejects_duplicates
    (db : Database) (name description periodicity date : string) :
  lower (strip name) <> "" ->
  (forall h, In h (habit db) -> lower (h_name h) <> lower (strip name)) ->
  let db' := snd (add_habit db name description periodicity date) in
  (exists row,
     db' = mkdb (habit db ++ [row])%list (tracker db) (S (next_habit_id db))
     /\ h_name row = lower (strip name)
     /\ (strip description = "" -> h_description row = "No description")
     /\ (strip description <> "" -> h_description row = description)
     /\ h_periodicity row = periodicity)
  /\ (forall name2 description2 periodicity2 date2 g,
        lower (strip name2) <> "" ->
        In g (habit db') -> lower (h_name g) = lower (strip name2) ->
        add_habit db' name2 description2 periodicity2 date2 =
        ("Error: A habit with the name '" ++ lower (strip name2) ++ "' already exists.", db')).
Proof.
  intros Hne Hfresh db'.
  assert (Hadd : add_habit db name description periodicity date =
    ("Habit '" ++ lower (strip name) ++ "' added successfully.",
     mkdb (habit db ++ [mkhabit (next_habit_id db) (lower (strip name))
             (if String.eqb (strip description) "" then "No description" else description)
             periodicity date])%list (tracker db) (S (next_habit_id db)))).
  { unfold add_habit.
    destruct (String.eqb_spec (lower (strip name)) "") as [E|_]; [contradiction|].
    rewrite lower_idem.
    destruct (existsb (fun h => String.eqb (lower (h_name h)) (lower (strip name))) (habit db))
      eqn:E1.
    { apply existsb_exists in E1. destruct E1 as [h [Hin Heq]].
      apply String.eqb_eq in Heq. exfalso. exact (Hfresh h Hin Heq). }
    destruct (existsb (fun h => String.eqb (h_name h) (lower (strip name))) (habit db))
      eqn:E2; [|reflexivity].
    apply existsb_exists in E2. destruct E2 as [h [Hin Heq]].
    apply String.eqb_eq in Heq. exfalso. apply (Hfresh h Hin).
    rewrite Heq. apply lower_idem. }
  assert (Hdb' : db' = mkdb (habit db ++ [mkhabit (next_habit_id db) (lower (strip name))
             (if String.eqb (strip description) "" then "No description" else description)
             periodicity date])%list (tracker db) (S (next_habit_id db)))
    by (unfold db'; rewrite Hadd; reflexivity).
  split.
  - eexists. split; [exact Hdb'|]. cbn [h_name h_description h_periodicity].
    split; [reflexivity|]. split; [|split; [|reflexivity]].
    + intros E. rewrite E. reflexivity.
    + intros E. apply String.eqb_neq in E. rewrite E. reflexivity.
  - intros name2 description2 periodicity2 date2 g Hne2 Hg Hlg.
    unfold add_habit.
    destruct (String.eqb_spec (lower (strip name2)) "") as [E|_]; [contradiction|].
    replace (existsb (fun h => String.eqb (lower (h_name h)) (lower (lower (strip name2))))
               (habit db')) with true; [reflexivity|].
    symmetry. apply existsb_exists. exists g. split; [exact Hg|].
    rewrite lower_idem, Hlg. apply String.eqb_refl.
Qed.

Lemma add_habit_normalises_and_rejects_duplicates_witness :
  lower (strip "  Workout ") <> ""
  /\ habit (snd (add_habit empty_db "  Workout " "  " "daily" "2024-12-01 09:00:00"))
     = [mkhabit 1 "workout" "No description" "daily" "2024-12-01 09:00:00"]
  /\ fst (add_habit (snd (add_habit empty_db "  Workout " "  " "daily" "2024-12-01 09:00:00"))
            "  WORKOUT " "x" "weekly" "2024-12-02 09:00:00")
     = "Error: A habit with the name 'workout' already exists.".
Proof.
  assert (Hne : lower (strip "  Workout ") <> "") by discriminate.
  destruct (add_habit_normalises_and_rejects_duplicates empty_db "  Workout " "  " "daily"
              "2024-12-01 09:00:00" Hne (fun h (Hin : In h []) => False_ind _ Hin))
    as [[row [Hdb [Hname [Hdesc _]]]] Hdup].
  split; [exact Hne|]. split.
  - reflexivity.
  - rewrite (Hdup "  WORKOUT " "x" "weekly" "2024-12-02 09:00:00" row);
      [reflexivity | discriminate | | rewrite Hname; reflexivity].
    rewrite Hdb. left. reflexivity.
Defined.

(** ** The expectations of [src/test_analytics.py] and [src/test_errors.py] *)

Example test_calculate_streak :
  map (calculate_streak populated_db) ["meditation"; "studying"; "workout"; "car wash"; "grocery shop"]
  = [Streak 11; Streak 14; Streak 15; Streak 2; Streak 3].
Proof. vm_compute. reflexivity. Qed.

Example test_longest_streak_across :
  longest_streak_across populated_db = Some [("workout", 15%nat)].
Proof. vm_compute. reflexivity. Qed.

Example test_longest_streak_ties :
  longest_streak_across ties_db = Some [("habit1", 3%nat); ("habit2", 3%nat)].
Proof. vm_compute. reflexivity. Qed.

Example test_empty_database : longest_streak_across empty_db = Some [].
Proof. reflexivity. Qed.

(** [isocalendar] on the year ends used above, as CPython computes it. *)
Example isocalendar_year_ends :
  isocalendar (mkdt 2024 12 23 0 0 0) = (2024, 52)
  /\ isocalendar (mkdt 2024 12 30 0 0 0) = (2025, 1)
  /\ isocalendar (mkdt 2021 1 1 0 0 0) = (2020, 53).
Proof. vm_compute. repeat split. Qed.

(** ** Further properties of the store operations *)

Ltac destruct_match_in H :=
  match type of H with
  | context [match ?x with _ => _ end] => destruct x eqn:?
  | context [if ?x then _ else _] => destruct x eqn:?
  end.

Lemma NoDup_map_eq (A B : Type) (f : A -> B) (l : list A) (a b : A) :
  NoDup (map f l) -> In a l -> In b l -> f a = f b -> a = b.
Proof.
  induction l as [|x l IH]; intros Hnd Ha Hb Hf; [destruct Ha|].
  simpl in Hnd. apply NoDup_cons_iff in Hnd. destruct Hnd as [Hx Hnd].
  destruct Ha as [<-|Ha], Hb as [<-|Hb]; auto.
  - exfalso. apply Hx. rewrite Hf. apply in_map. exact Hb.
  - exfalso. apply Hx. rewrite <- Hf. apply in_map. exact Ha.
Qed.

Lemma habits_filter_keep_keys_distinct (keep : habit_row -> bool) (rows : list habit_row) :
  NoDup (map (fun h => lower (h_name h)) rows) ->
  NoDup (map (fun h => lower (h_name h)) (filter keep rows)).
Proof.
  intros Hnd. induction rows as [|x rows IH]; [constructor|]. cbn [filter].
  cbn [map] in Hnd. apply NoDup_cons_iff in Hnd. destruct Hnd as [Hx Hnd].
  destruct (keep x); [|exact (IH Hnd)]. cbn [map]. apply NoDup_cons; [|exact (IH Hnd)].
  intros Hin. apply Hx. apply in_map_iff in Hin. destruct Hin as [y [Hy Hin]].
  apply filter_In in Hin. rewrite <- Hy. apply (in_map (fun h => lower (h_name h))), Hin.
Qed.

Lemma add_habit_shape (db : Database) (name description periodicity date : string) :
  snd (add_habit db name description periodicity date) = db
  \/ exists row,
     snd (add_habit db name description periodicity date)
       = mkdb (habit db ++ [row])%list (tracker db) (S (next_habit_id db))
     /\ h_name row = lower (strip name)
     /\ (forall h, In h (habit db) -> lower (h_name h) <> lower (h_name row)).
Proof.
  unfold add_habit.
  destruct (String.eqb _ "") eqn:E0; [left; reflexivity|].
  destruct (existsb _ (habit db)) eqn:E1; [left; reflexivity|].
  destruct (existsb (fun h => String.eqb (h_name h) _) (habit db)) eqn:E2; [left; reflexivity|].
  right. eexists. split; [reflexivity|]. split; [reflexivity|].
  intros h Hin Heq. cbn [h_name] in Heq.
  assert (T : existsb (fun h => String.eqb (lower (h_name h)) (lower (lower (strip name))))
                (habit db) = true).
  { apply existsb_exists. exists h. split; [exact Hin|]. apply String.eqb_eq. exact Heq. }
  congruence.
Qed.

Lemma increment_tracker_shape (db : Database) (habit_name : string) (t : stamp) :
  (find (fun h => String.eqb (lower (h_name h)) (lower habit_name)) (habit db) = None
   /\ snd (increment_tracker db habit_name t) = db)
  \/ exists h,
     find (fun h => String.eqb (lower (h_name h)) (lower habit_name)) (habit db) = Some h
     /\ snd (increment_tracker db habit_name t)
        = mkdb (habit db) (tracker db ++ [mktrack t (h_name h)])%list (next_habit_id db).
Proof.
  unfold increment_tracker.
  destruct (find _ (habit db)) as [h|] eqn:E; [right; exists h; auto | left; auto].
Qed.

Lemma habit_increment_tracker (db : Database) (habit_name : string) (t : stamp) :
  habit (snd (increment_tracker db habit_name t)) = habit db.
Proof.
  destruct (increment_tracker_shape db habit_name t) as [[_ E]|[h [_ E]]]; rewrite E; reflexivity.
Qed.

Lemma add_event_shape (self : Habit) (db db' : Database) (date : date_arg) (m : string) :
  add_event self db date = Some (m, db') ->
  db' = db \/
  exists t p, get_habit_periodicity db (hb_name self) = Some p
    /\ check_event_exists db (hb_name self) t p = Some false
    /\ db' = snd (increment_tracker db (hb_name self) t).
Proof.
  unfold add_event. intros H.
  destruct (proof_habit db (hb_name self)); [|injection H as _ <-; left; reflexivity].
  destruct date as [now|text [[[y mo] d]|]];
    [set (t := strftime_stamp now) in H
    | set (t := mkstamp (text ++ " 00:00:00") (mkdt y mo d 0 0 0)) in H
    | injection H as _ <-; left; reflexivity].
  all: destruct (get_habit_periodicity db (hb_name self)) as [p|] eqn:Ep;
    [|injection H as _ <-; left; reflexivity].
  all: destruct (String.eqb p "") ; [injection H as _ <-; left; reflexivity|].
  all: destruct (check_event_exists db (hb_name self) t p) as [[]|] eqn:Ec; [| |discriminate].
  all: try (injection H as H; right; exists t, p; rewrite H; auto; fail).
  all: destruct (String.eqb p "daily") eqn:Ed; [injection H as _ <-; left; reflexivity|].
  all: destruct (String.eqb p "weekly") eqn:Ew; [injection H as _ <-; left; reflexivity|].
  all: unfold check_event_exists in Ec; rewrite Ed, Ew in Ec; discriminate.
Qed.

Lemma find_ci_unique (db : Database) (h : habit_row) (habit_name : string) :
  ci_unique db -> In h (habit db) -> lower habit_name = lower (h_name h) ->
  find (fun h => String.eqb (lower (h_name h)) (lower habit_name)) (habit db) = Some h.
Proof.
  intros Hu Hin Hl.
  destruct (find _ (habit db)) as [h0|] eqn:E.
  - apply find_some in E. destruct E as [Hin0 E]. apply String.eqb_eq in E.
    f_equal. apply (NoDup_map_eq _ _ (fun h => lower (h_name h)) (habit db) h0 h Hu Hin0 Hin).
    congruence.
  - exfalso. pose proof (find_none _ _ E h Hin) as F. rewrite Hl, String.eqb_refl in F.
    discriminate.
Qed.

Lemma check_offs_app_row (db : Database) (rows : list tracker_row) (habit_name : string) :
  filter (fun r => String.eqb (t_habit_name r) habit_name) (tracker db ++ rows)%list
  = (check_offs db habit_name ++ filter (fun r => String.eqb (t_habit_name r) habit_name) rows)%list.
Proof. unfold check_offs. apply filter_app. Qed.

(** [increment_tracker] with a name that matches a stored habit up to case
    adds exactly one check-off to that habit, under its stored name, and
    changes no other count and no habit; with a name matching no habit it
    changes nothing. *)
Theorem increment_tracker_adds_one (db : Database) (habit_name : string) (t : stamp) :
  ((forall h, In h (habit db) -> lower (h_name h) <> lower habit_name) ->
   increment_tracker db habit_name t
   = ("Habit '" ++ habit_name ++ "' not found. Cannot add event.", db))
  /\ (forall h, ci_unique db -> In h (habit db) -> lower habit_name = lower (h_name h) ->
      let db' := snd (increment_tracker db habit_name t) in
      habit db' = habit db
      /\ calculate_count db' (h_name h) = S (calculate_count db (h_name h))
      /\ (forall other, other <> h_name h -> calculate_count db' other = calculate_count db other)).
Proof.
  split.
  - intros H. unfold increment_tracker.
    destruct (find _ (habit db)) as [h|] eqn:E; [|reflexivity].
    apply find_some in E. destruct E as [Hin E]. apply String.eqb_eq in E.
    exfalso. exact (H h Hin E).
  - intros h Hu Hin Hl db'.
    assert (E : db' = mkdb (habit db) (tracker db ++ [mktrack t (h_name h)])%list
                           (next_habit_id db)).
    { unfold db', increment_tracker. rewrite (find_ci_unique db h habit_name Hu Hin Hl).
      reflexivity. }
    rewrite E. unfold calculate_count, get_habit_data, check_offs. cbn [habit tracker].
    split; [reflexivity|]. split.
    + rewrite filter_app, length_app. simpl. rewrite String.eqb_refl. simpl. lia.
    + intros other Hne. rewrite filter_app, length_app. simpl.
      destruct (String.eqb_spec (h_name h) other) as [Heq|_]; [congruence|]. simpl. lia.
Qed.

Lemma increment_tracker_adds_one_witness :
  calculate_count (snd (increment_tracker db_case_variant "WorkOut" (strftime_stamp (mkdt 2024 12 1 7 0 0))))
    "workout" = 1%nat.
Proof.
  destruct (increment_tracker_adds_one db_case_variant "WorkOut" (strftime_stamp (mkdt 2024 12 1 7 0 0)))
    as [_ H].
  destruct (H (mkhabit 1 "workout" "No description" "daily" "2024-12-01 09:00:00"))
    as [_ [Hc _]].
  - constructor; [intros []|constructor].
  - left. reflexivity.
  - reflexivity.
  - cbn [h_name] in Hc. rewrite Hc. reflexivity.
Defined.

Lemma fk_same_habits (db db' : Database) :
  map h_name (habit db') = map h_name (habit db) ->
  (forall r, In r (tracker db') -> In r (tracker db)) ->
  fk_ok db -> fk_ok db'.
Proof. intros Hh Ht Hfk r Hr. rewrite Hh. apply Hfk, Ht, Hr. Qed.

Lemma fk_add_habit (db : Database) (name description periodicity date : string) :
  fk_ok db -> fk_ok (snd (add_habit db name description periodicity date)).
Proof.
  intros Hfk. destruct (add_habit_shape db name description periodicity date)
    as [E|[row [E _]]]; rewrite E; [exact Hfk|].
  intros r Hr. cbn [habit tracker] in *. rewrite map_app. apply in_or_app. left. apply Hfk, Hr.
Qed.

Lemma fk_increment_tracker (db : Database) (habit_name : string) (t : stamp) :
  fk_ok db -> fk_ok (snd (increment_tracker db habit_name t)).
Proof.
  intros Hfk. destruct (increment_tracker_shape db habit_name t) as [[_ E]|[h [F E]]];
    rewrite E; [exact Hfk|].
  intros r Hr. cbn [habit tracker] in *. apply in_app_or in Hr. destruct Hr as [Hr|[<-|[]]].
  - apply Hfk, Hr.
  - apply find_some in F. cbn [t_habit_name]. apply in_map, F.
Qed.

Lemma fk_delete_habit_data (db : Database) (habit_name : string) :
  fk_ok db -> fk_ok (delete_habit_data db habit_name).
Proof.
  intros Hfk r Hr. cbn [delete_habit_data habit tracker] in *.
  apply filter_In in Hr. destruct Hr as [Hr Hne].
  apply Hfk, in_map_iff in Hr. destruct Hr as [h [Hh Hin]].
  apply in_map_iff. exists h. split; [exact Hh|]. apply filter_In. split; [exact Hin|].
  rewrite Hh. exact Hne.
Qed.

Lemma fk_delete_tracker_data (db : Database) (habit_name : string) :
  fk_ok db -> fk_ok (delete_tracker_data db habit_name).
Proof.
  apply fk_same_habits; [reflexivity|]. intros r Hr. apply filter_In in Hr. apply Hr.
Qed.

Lemma names_set_description (db : Database) (name d : string) :
  map h_name (habit (set_description db name d)) = map h_name (habit db).
Proof.
  cbn [set_description habit]. rewrite map_map. apply map_ext. intros h.
  destruct (String.eqb (h_name h) name); reflexivity.
Qed.

Lemma names_set_periodicity (db : Database) (name p : string) :
  map h_name (habit (set_periodicity db name p)) = map h_name (habit db).
Proof.
  cbn [set_periodicity habit]. rewrite map_map. apply map_ext. intros h.
  destruct (String.eqb (h_name h) name); reflexivity.
Qed.

Lemma fk_rename_habit (db : Database) (old new : string) :
  fk_ok db -> fk_ok (rename_habit db old new).
Proof.
  intros Hfk r Hr. cbn [rename_habit habit tracker] in *.
  apply in_map_iff in Hr. destruct Hr as [r0 [<- Hr0]].
  apply Hfk, in_map_iff in Hr0. destruct Hr0 as [h [Hh Hin]].
  rewrite map_map. apply in_map_iff. exists h. split; [|exact Hin].
  cbn beta. rewrite Hh. destruct (String.eqb (t_habit_name r0) old); [reflexivity | exact Hh].
Qed.

Lemma update_habit_shape (db : Database) (old_name : string)
    (new_name new_description new_periodicity : option string) (m : string) (db' : Database) :
  update_habit db old_name new_name new_description new_periodicity = Some (m, db') ->
  db' = db \/
  exists db1 name, (db1 = db \/ exists old, db1 = rename_habit db old name)
    /\ db' = match truthy new_periodicity with
             | Some p => set_periodicity
                 (match truthy new_description with
                  | Some d => set_description db1 name d | None => db1 end) name p
             | None => match truthy new_description with
                       | Some d => set_description db1 name d | None => db1 end
             end.
Proof.
  unfold update_habit. intros H.
  destruct (find _ (habit db)) as [h|]; [|injection H as _ <-; left; reflexivity].
  right. destruct (truthy new_name) as [nn|].
  - destruct (existsb _ (habit db)); [discriminate|].
    injection H as _ <-. exists (rename_habit db (h_name h) nn), nn.
    split; [right; eexists; reflexivity | reflexivity].
  - injection H as _ <-. exists db, (h_name h). split; [left | ]; reflexivity.
Qed.

Lemma fk_update_habit (db : Database) (old_name : string)
    (new_name new_description new_periodicity : option string) (m : string) (db' : Database) :
  fk_ok db ->
  update_habit db old_name new_name new_description new_periodicity = Some (m, db') ->
  fk_ok db'.
Proof.
  intros Hfk H. apply update_habit_shape in H.
  destruct H as [->|[db1 [name [Hdb1 ->]]]]; [exact Hfk|].
  assert (H1 : fk_ok db1) by (destruct Hdb1 as [->|[old ->]]; [exact Hfk | apply fk_rename_habit, Hfk]).
  assert (H2 : fk_ok (match truthy new_description with
                      | Some d => set_description db1 name d | None => db1 end)).
  { destruct (truthy new_description); [|exact H1].
    apply (fk_same_habits db1); [apply names_set_description | auto | exact H1]. }
  destruct (truthy new_periodicity); [|exact H2].
  apply (fk_same_habits _ _ (names_set_periodicity _ name _)); [auto | exact H2].
Qed.

Lemma store_shape (self : Habit) (db : Database) :
  snd (store self db) = db \/
  exists d, snd (store self db) = snd (add_habit db (hb_name self) d (hb_periodicity self) (hb_date self)).
Proof.
  unfold store. destruct (String.eqb _ ""); [left; reflexivity|].
  destruct (proof_habit db (hb_name self)); [left; reflexivity|]. right. eexists. reflexivity.
Qed.

(** Every operation that writes the store keeps the foreign key of
    [tracker] to [habit]: each check-off names an existing habit. *)
Theorem store_operations_keep_foreign_key (db : Database) :
  fk_ok db ->
  (forall name description periodicity date,
     fk_ok (snd (add_habit db name description periodicity date)))
  /\ (forall habit_name t, fk_ok (snd (increment_tracker db habit_name t)))
  /\ (forall habit_name, fk_ok (delete_habit_data db habit_name))
  /\ (forall habit_name, fk_ok (delete_tracker_data db habit_name))
  /\ fk_ok (snd (delete_db db))
  /\ (forall old_name nn nd np m db',
        update_habit db old_name nn nd np = Some (m, db') -> fk_ok db')
  /\ (forall self, fk_ok (snd (store self db)))
  /\ (forall self date m db', add_event self db date = Some (m, db') -> fk_ok db')
  /\ (forall self, fk_ok (snd (habit_delete self db)))
  /\ (forall self, fk_ok (snd (reset_in_db self db)))
  /\ (forall self nn nd np m db', habit_update self db nn nd np = Some (m, db') -> fk_ok db').
Proof.
  intros Hfk.
  split; [intros; apply fk_add_habit, Hfk|].
  split; [intros; apply fk_increment_tracker, Hfk|].
  split; [intros; apply fk_delete_habit_data, Hfk|].
  split; [intros; apply fk_delete_tracker_data, Hfk|].
  split; [intros r []|].
  split; [intros; eapply fk_update_habit; eauto|].
  split; [intros self; destruct (store_shape self db) as [E|[d E]]; rewrite E;
          [exact Hfk | apply fk_add_habit, Hfk]|].
  split; [intros self date m db' H; apply add_event_shape in H;
          destruct H as [->|[t [p [_ [_ ->]]]]]; [exact Hfk | apply fk_increment_tracker, Hfk]|].
  split; [intros self; unfold habit_delete; destruct (proof_habit db (hb_name self));
          [apply fk_delete_habit_data, Hfk | exact Hfk]|].
  split; [intros self; unfold reset_in_db; destruct (proof_habit db (hb_name self));
          [apply fk_delete_tracker_data, Hfk | exact Hfk]|].
  intros self nn nd np m db' H. unfold habit_update in H.
  destruct (proof_habit db (hb_name self)); simpl in H;
    [eapply fk_update_habit; eauto | injection H as _ <-; exact Hfk].
Qed.

Lemma store_operations_keep_foreign_key_witness :
  fk_ok db_two_habits
  /\ fk_ok (snd (increment_tracker db_two_habits "WORKOUT" (strftime_stamp (mkdt 2024 12 3 7 0 0))))
  /\ fk_ok (snd (habit_delete (new_habit "run" "" "daily" "2024-12-05 10:00:00") db_two_habits)).
Proof.
  assert (H : fk_ok db_two_habits) by (intros r [<-|[]]; right; left; reflexivity).
  destruct (store_operations_keep_foreign_key db_two_habits H)
    as [_ [Hi [_ [_ [_ [_ [_ [_ [Hd _]]]]]]]]].
  split; [exact H|]. split; [apply Hi | apply Hd].
Defined.

Lemma NoDup_snoc (A : Type) (l : list A) (x : A) :
  NoDup l -> ~ In x l -> NoDup (l ++ [x])%list.
Proof.
  induction l as [|y l IH]; intros Hnd Hx; simpl; [constructor; [intros []|constructor]|].
  apply NoDup_cons_iff in Hnd. destruct Hnd as [Hy Hnd]. constructor.
  - intros Hin. apply in_app_or in Hin. destruct Hin as [Hin|[<-|[]]]; [contradiction|].
    apply Hx. left. reflexivity.
  - apply IH; [exact Hnd|]. intros Hin. apply Hx. right. exact Hin.
Qed.

Lemma ci_add_habit (db : Database) (name description periodicity date : string) :
  ci_unique db -> ci_unique (snd (add_habit db name description periodicity date)).
Proof.
  intros Hu. destruct (add_habit_shape db name description periodicity date)
    as [E|[row [E [_ Hnew]]]]; rewrite E; [exact Hu|].
  unfold ci_unique. cbn [habit]. rewrite map_app. apply NoDup_snoc; [exact Hu|].
  intros Hin. apply in_map_iff in Hin. destruct Hin as [h [Hh Hin]].
  exact (Hnew h Hin Hh).
Qed.

Lemma ci_same_habits (db db' : Database) :
  habit db' = habit db -> ci_unique db -> ci_unique db'.
Proof. unfold ci_unique. intros ->. auto. Qed.

(** Every operation that writes the store, except [update_habit], keeps
    habit names distinct up to case. *)
Theorem store_operations_keep_names_distinct (db : Database) :
  ci_unique db ->
  (forall name description periodicity date,
     ci_unique (snd (add_habit db name description periodicity date)))
  /\ (forall habit_name t, ci_unique (snd (increment_tracker db habit_name t)))
  /\ (forall habit_name, ci_unique (delete_habit_data db habit_name))
  /\ (forall habit_name, ci_unique (delete_tracker_data db habit_name))
  /\ ci_unique (snd (delete_db db))
  /\ (forall self, ci_unique (snd (store self db)))
  /\ (forall self date m db', add_event self db date = Some (m, db') -> ci_unique db')
  /\ (forall self, ci_unique (snd (habit_delete self db)))
  /\ (forall self, ci_unique (snd (reset_in_db self db))).
Proof.
  intros Hu.
  assert (Hd : forall n, ci_unique (delete_habit_data db n))
    by (intros n; apply habits_filter_keep_keys_distinct, Hu).
  assert (Ht : forall n, ci_unique (delete_tracker_data db n))
    by (intros n; apply (ci_same_habits db); [reflexivity | exact Hu]).
  assert (Hi : forall n t, ci_unique (snd (increment_tracker db n t)))
    by (intros n t; apply (ci_same_habits db); [apply habit_increment_tracker | exact Hu]).
  split; [intros; apply ci_add_habit, Hu|].
  split; [exact Hi|]. split; [exact Hd|]. split; [exact Ht|].
  split; [constructor|].
  split; [intros self; destruct (store_shape self db) as [E|[d E]]; rewrite E;
          [exact Hu | apply ci_add_habit, Hu]|].
  split; [intros self date m db' H; apply add_event_shape in H;
          destruct H as [->|[t [p [_ [_ ->]]]]]; [exact Hu | apply Hi]|].
  split; [intros self; unfold habit_delete; destruct (proof_habit db (hb_name self));
          [apply Hd | exact Hu]|].
  intros self; unfold reset_in_db; destruct (proof_habit db (hb_name self)); [apply Ht | exact Hu].
Qed.

Lemma store_operations_keep_names_distinct_witness :
  ci_unique (snd (add_habit db_case_variant "Run" "" "daily" "2024-12-01 09:00:00")).
Proof.
  apply (store_operations_keep_names_distinct db_case_variant).
  constructor; [intros []|constructor].
Defined.

Lemma find_rename_habit (l : list habit_row) (h : habit_row) (old_name : string) :
  (forall h', In h' l -> lower (h_name h') = lower old_name -> h' = h) ->
  In h l -> lower old_name = lower (h_name h) ->
  find (fun h => String.eqb (lower (h_name h)) (lower old_name)) l = Some h.
Proof.
  intros Hu Hin Hl.
  destruct (find _ l) as [h0|] eqn:E.
  - apply find_some in E. destruct E as [Hin0 E]. apply String.eqb_eq in E.
    f_equal. apply Hu; assumption.
  - exfalso. pose proof (find_none _ _ E h Hin) as F. cbv beta in F.
    rewrite Hl, String.eqb_refl in F. discriminate.
Qed.

(** [update_habit] renaming a habit to a name that another habit has
    exactly raises the [IntegrityError] of the [UNIQUE] column. *)
Theorem update_habit_rename_taken (db : Database) (old_name : string) (h g : habit_row)
    (new_description new_periodicity : option string) :
  ci_unique db -> In h (habit db) -> lower old_name = lower (h_name h) ->
  In g (habit db) -> g <> h -> h_name g <> "" ->
  update_habit db old_name (Some (h_name g)) new_description new_periodicity = None.
Proof.
  intros Hu Hh Hl Hg Hgh Hne. unfold update_habit.
  rewrite (find_ci_unique db h old_name Hu Hh Hl). cbn [truthy].
  apply String.eqb_neq in Hne. rewrite Hne.
  assert (Hname : h_name g <> h_name h).
  { intros E. apply Hgh. apply (NoDup_map_eq _ _ (fun h => lower (h_name h)) (habit db) g h Hu Hg Hh).
    cbv beta. rewrite E. reflexivity. }
  replace (existsb _ (habit db)) with true; [reflexivity|]. symmetry.
  apply existsb_exists. exists g. split; [exact Hg|].
  rewrite String.eqb_refl. apply String.eqb_neq in Hname. rewrite Hname. reflexivity.
Qed.

Lemma update_habit_rename_taken_witness :
  update_habit db_two_habits "Run" (Some "workout") None None = None.
Proof.
  apply (update_habit_rename_taken db_two_habits "Run"
           (mkhabit 2 "run" "No description" "daily" "2024-12-01 09:00:00")
           (mkhabit 1 "workout" "No description" "daily" "2024-12-01 09:00:00")).
  - vm_compute. repeat constructor; vm_compute; intuition discriminate.
  - right. left. reflexivity.
  - reflexivity.
  - left. reflexivity.
  - discriminate.
  - discriminate.
Defined.

(** [update_habit] checks the new name only against the exact names of the
    other habits: renaming a habit to a case variant of another habit's
    name succeeds and leaves two habits whose names differ only in case. *)
Theorem update_habit_rename_case_variant (db : Database) (old_name new_name : string)
    (h g : habit_row) :
  ci_unique db -> In h (habit db) -> lower old_name = lower (h_name h) ->
  In g (habit db) -> g <> h ->
  new_name <> "" -> ~ In new_name (map h_name (habit db)) ->
  lower new_name = lower (h_name g) ->
  exists m db', update_habit db old_name (Some new_name) None None = Some (m, db')
    /\ In new_name (map h_name (habit db')) /\ In (h_name g) (map h_name (habit db'))
    /\ ~ ci_unique db'.
Proof.
  intros Hu Hh Hl Hg Hgh Hne Hfresh Hlg. unfold update_habit.
  rewrite (find_ci_unique db h old_name Hu Hh Hl). cbn [truthy].
  rewrite (proj2 (String.eqb_neq _ _) Hne).
  replace (existsb _ (habit db)) with false.
  2:{ symmetry. apply not_true_iff_false. intros E. apply existsb_exists in E.
      destruct E as [x [Hx E]]. apply andb_prop in E. destruct E as [E _].
      apply String.eqb_eq in E. apply Hfresh. rewrite <- E. apply in_map, Hx. }
  assert (Hname : h_name g <> h_name h).
  { intros E. apply Hgh. apply (NoDup_map_eq _ _ (fun h => lower (h_name h)) (habit db) g h Hu Hg Hh).
    cbv beta. rewrite E. reflexivity. }
  set (ren := fun h0 : habit_row => if String.eqb (h_name h0) (h_name h)
                then mkhabit (h_id h0) new_name (h_description h0) (h_periodicity h0) (h_date h0)
                else h0).
  assert (Hrh : In (ren h) (habit (rename_habit db (h_name h) new_name)))
    by (apply in_map, Hh).
  assert (Hrg : In (ren g) (habit (rename_habit db (h_name h) new_name)))
    by (apply in_map, Hg).
  assert (Ehn : h_name (ren h) = new_name) by (unfold ren; rewrite String.eqb_refl; reflexivity).
  assert (Eg : ren g = g) by (unfold ren; rewrite (proj2 (String.eqb_neq _ _) Hname); reflexivity).
  rewrite Eg in Hrg.
  eexists _, _. split; [reflexivity|]. cbn [truthy].
  split; [apply in_map_iff; exists (ren h); split; [exact Ehn | exact Hrh]|].
  split; [apply in_map, Hrg|].
  intros Hu'. assert (E : ren h = g).
  { apply (NoDup_map_eq _ _ (fun h => lower (h_name h)) _ (ren h) g Hu' Hrh Hrg).
    cbv beta. rewrite Ehn. exact Hlg. }
  apply Hfresh. rewrite <- Ehn, E. apply in_map, Hg.
Qed.

Lemma update_habit_rename_case_variant_witness :
  exists m db', update_habit db_two_habits "run" (Some "Workout") None None = Some (m, db')
    /\ In "Workout" (map h_name (habit db')) /\ In "workout" (map h_name (habit db'))
    /\ ~ ci_unique db'.
Proof.
  apply (update_habit_rename_case_variant db_two_habits "run" "Workout"
           (mkhabit 2 "run" "No description" "daily" "2024-12-01 09:00:00")
           (mkhabit 1 "workout" "No description" "daily" "2024-12-01 09:00:00")).
  - vm_compute. repeat constructor; vm_compute; intuition discriminate.
  - right. left. reflexivity.
  - reflexivity.
  - left. reflexivity.
  - discriminate.
  - discriminate.
  - vm_compute. intuition discriminate.
  - reflexivity.
Defined.

Lemma existsb_map_habit (f : habit_row -> bool) (g : habit_row -> habit_row) (l : list habit_row) :
  existsb f (map g l) = existsb (fun h => f (g h)) l.
Proof. induction l as [|x l IH]; simpl; [reflexivity | rewrite IH; reflexivity]. Qed.

Lemma find_map_habit (f : habit_row -> bool) (g : habit_row -> habit_row) (l : list habit_row) :
  find f (map g l) = option_map g (find (fun h => f (g h)) l).
Proof. induction l as [|x l IH]; simpl; [reflexivity | destruct (f (g x)); auto]. Qed.

(** Only the names, the periodicities and the check-offs decide a streak. *)
Lemma calculate_streak_ext (db db' : Database) (habit_name : string) :
  map (fun h => (h_name h, h_periodicity h)) (habit db')
  = map (fun h => (h_name h, h_periodicity h)) (habit db) ->
  tracker db' = tracker db ->
  calculate_streak db' habit_name = calculate_streak db habit_name.
Proof.
  intros Hh Ht.
  assert (Hp : forall db0, proof_habit db0 habit_name =
     existsb (fun np => String.eqb (lower (fst np)) (lower habit_name))
             (map (fun h => (h_name h, h_periodicity h)) (habit db0))).
  { intros db0. unfold proof_habit. induction (habit db0) as [|x l IH]; simpl; congruence. }
  assert (Hs : forall db0, select_periodicity db0 habit_name =
     option_map snd (find (fun np => String.eqb (fst np) habit_name)
             (map (fun h => (h_name h, h_periodicity h)) (habit db0)))).
  { intros db0. unfold select_periodicity. induction (habit db0) as [|x l IH]; simpl; [reflexivity|].
    destruct (String.eqb (h_name x) habit_name); [reflexivity | exact IH]. }
  unfold calculate_streak, select_check_off_dates, check_offs.
  rewrite (Hp db'), (Hp db), (Hs db'), (Hs db), Hh, Ht. reflexivity.
Qed.

Lemma check_offs_rename (l : list tracker_row) (old new : string) :
  (forall r, In r l -> t_habit_name r <> new) ->
  map t_check_of_date
    (filter (fun r => String.eqb (t_habit_name r) new)
       (map (fun r => if String.eqb (t_habit_name r) old
                      then mktrack (t_check_of_date r) new else r) l))
  = map t_check_of_date (filter (fun r => String.eqb (t_habit_name r) old) l).
Proof.
  induction l as [|r l IH]; intros Hn; [reflexivity|]. cbn [map filter].
  destruct (String.eqb (t_habit_name r) old) eqn:E.
  - cbn [t_habit_name t_check_of_date]. rewrite String.eqb_refl. cbn [map].
    f_equal. apply IH. intros r' Hr'. apply Hn. right. exact Hr'.
  - rewrite (proj2 (String.eqb_neq _ _) (Hn r (or_introl eq_refl))).
    apply IH. intros r' Hr'. apply Hn. right. exact Hr'.
Qed.

Lemma periodicity_rename (l : list habit_row) (old new : string) :
  (forall h, In h l -> h_name h <> new) ->
  option_map h_periodicity
    (find (fun h => String.eqb (h_name h) new)
       (map (fun h => if String.eqb (h_name h) old
                      then mkhabit (h_id h) new (h_description h) (h_periodicity h) (h_date h)
                      else h) l))
  = option_map h_periodicity (find (fun h => String.eqb (h_name h) old) l).
Proof.
  induction l as [|h l IH]; intros Hn; [reflexivity|]. cbn [map find].
  destruct (String.eqb (h_name h) old) eqn:E.
  - cbn [h_name]. rewrite String.eqb_refl. reflexivity.
  - rewrite (proj2 (String.eqb_neq _ _) (Hn h (or_introl eq_refl))).
    apply IH. intros h' Hh'. apply Hn. right. exact Hh'.
Qed.

(** Renaming a habit through [update_habit] to a name no habit has carries
    its check-offs along ([ON UPDATE CASCADE]): under the new name the
    habit has the streak and the count it had under its old name, whatever
    the new description. *)
Theorem update_habit_rename_keeps_progress (db : Database) (old_name new_name : string)
    (h : habit_row) (new_description : option string) :
  fk_ok db -> ci_unique db -> In h (habit db) -> lower old_name = lower (h_name h) ->
  new_name <> "" -> ~ In new_name (map h_name (habit db)) ->
  exists m db', update_habit db old_name (Some new_name) new_description None = Some (m, db')
    /\ calculate_streak db' new_name = calculate_streak db (h_name h)
    /\ calculate_count db' new_name = calculate_count db (h_name h).
Proof.
  intros Hfk Hu Hh Hl Hne Hfresh. unfold update_habit.
  rewrite (find_ci_unique db h old_name Hu Hh Hl). cbn [truthy].
  rewrite (proj2 (String.eqb_neq _ _) Hne).
  replace (existsb _ (habit db)) with false.
  2:{ symmetry. apply not_true_iff_false. intros E. apply existsb_exists in E.
      destruct E as [x [Hx E]]. apply andb_prop in E. destruct E as [E _].
      apply String.eqb_eq in E. apply Hfresh. rewrite <- E. apply in_map, Hx. }
  assert (Hhn : forall x, In x (habit db) -> h_name x <> new_name)
    by (intros x Hx E; apply Hfresh; rewrite <- E; apply in_map, Hx).
  assert (Htn : forall r, In r (tracker db) -> t_habit_name r <> new_name)
    by (intros r Hr E; apply Hfresh; rewrite <- E; apply Hfk, Hr).
  set (db1 := rename_habit db (h_name h) new_name).
  assert (Hs : calculate_streak db1 new_name = calculate_streak db (h_name h)).
  { unfold calculate_streak.
    replace (proof_habit db1 new_name) with true.
    2:{ symmetry. unfold proof_habit, db1, rename_habit. cbn [habit].
        apply existsb_exists. eexists. split; [apply in_map, Hh|].
        rewrite String.eqb_refl. apply String.eqb_refl. }
    rewrite (proof_habit_In db h Hh).
    unfold select_check_off_dates, check_offs, select_periodicity, db1, rename_habit.
    cbn [habit tracker]. rewrite (check_offs_rename _ _ _ Htn), (periodicity_rename _ _ _ Hhn).
    reflexivity. }
  assert (Hc : calculate_count db1 new_name = calculate_count db (h_name h)).
  { unfold calculate_count, get_habit_data, check_offs, db1, rename_habit. cbn [tracker].
    rewrite <- (length_map t_check_of_date), (check_offs_rename _ _ _ Htn), length_map.
    reflexivity. }
  eexists _, _. split; [reflexivity|]. cbn [truthy]. destruct (truthy new_description) as [d|].
  - split; [rewrite <- Hs; apply calculate_streak_ext; [|reflexivity]|exact Hc].
    cbn [set_description habit]. rewrite map_map. apply map_ext. intros x.
    destruct (String.eqb (h_name x) new_name); reflexivity.
  - split; [exact Hs | exact Hc].
Qed.

Lemma update_habit_rename_keeps_progress_witness :
  exists m db', update_habit db_two_habits "RUN" (Some "jogging") (Some "Run in the park") None
                = Some (m, db')
    /\ calculate_streak db' "jogging" = calculate_streak db_two_habits "run"
    /\ calculate_count db' "jogging" = calculate_count db_two_habits "run".
Proof.
  apply (update_habit_rename_keeps_progress db_two_habits "RUN" "jogging"
           (mkhabit 2 "run" "No description" "daily" "2024-12-01 09:00:00")).
  - intros r [<-|[]]. right. left. reflexivity.
  - vm_compute. repeat constructor; vm_compute; intuition discriminate.
  - right. left. reflexivity.
  - reflexivity.
  - discriminate.
  - vm_compute. intuition discriminate.
Defined.

Lemma find_filter_habit (p q : habit_row -> bool) (l : list habit_row) :
  (forall a, p a = true -> q a = true) -> find p (filter q l) = find p l.
Proof.
  intros Hpq. induction l as [|x l IH]; [reflexivity|]. simpl.
  destruct (p x) eqn:Ep.
  - rewrite (Hpq x Ep). simpl. rewrite Ep. reflexivity.
  - destruct (q x); simpl; [rewrite Ep|]; exact IH.
Qed.

Lemma filter_filter_name (l : list tracker_row) (x y : string) :
  x <> y ->
  filter (fun r => String.eqb (t_habit_name r) x)
    (filter (fun r => negb (String.eqb (t_habit_name r) y)) l)
  = filter (fun r => String.eqb (t_habit_name r) x) l.
Proof.
  intros Hxy. induction l as [|r l IH]; [reflexivity|]. simpl.
  destruct (String.eqb (t_habit_name r) y) eqn:Ey; simpl.
  - apply String.eqb_eq in Ey. rewrite Ey, (proj2 (String.eqb_neq _ _) (not_eq_sym Hxy)).
    exact IH.
  - destruct (String.eqb (t_habit_name r) x); [f_equal|]; exact IH.
Qed.

Lemma filter_name_removed (l : list tracker_row) (y : string) :
  filter (fun r => String.eqb (t_habit_name r) y)
    (filter (fun r => negb (String.eqb (t_habit_name r) y)) l) = [].
Proof.
  induction l as [|r l IH]; [reflexivity|]. simpl.
  destruct (String.eqb (t_habit_name r) y) eqn:Ey; simpl; [exact IH|].
  rewrite Ey. exact IH.
Qed.

Lemma calculate_streak_congr (db db' : Database) (habit_name : string) :
  proof_habit db' habit_name = proof_habit db habit_name ->
  check_offs db' habit_name = check_offs db habit_name ->
  select_periodicity db' habit_name = select_periodicity db habit_name ->
  calculate_streak db' habit_name = calculate_streak db habit_name.
Proof.
  intros Hp Hc Hs. unfold calculate_streak, select_check_off_dates.
  rewrite Hp, Hc, Hs. reflexivity.
Qed.

Lemma ci_other_name (db : Database) (h g : habit_row) :
  ci_unique db -> In h (habit db) -> In g (habit db) -> h_name g <> h_name h ->
  lower (h_name g) <> lower (h_name h).
Proof.
  intros Hu Hh Hg Hne E. apply Hne. f_equal.
  exact (NoDup_map_eq _ _ (fun h => lower (h_name h)) (habit db) g h Hu Hg Hh E).
Qed.

(** [DBHabit.delete] of a stored habit removes it with all its check-offs:
    afterwards its name is not found and counts nothing, and every other
    habit keeps its streak and its count. *)
Theorem habit_delete_removes_only_it (db : Database) (self : Habit) (h : habit_row) :
  ci_unique db -> In h (habit db) -> hb_name self = h_name h ->
  let db' := snd (habit_delete self db) in
  calculate_streak db' (h_name h) = Message (not_found_message (h_name h))
  /\ calculate_count db' (h_name h) = 0%nat
  /\ (forall g, In g (habit db) -> h_name g <> h_name h ->
        calculate_streak db' (h_name g) = calculate_streak db (h_name g)
        /\ calculate_count db' (h_name g) = calculate_count db (h_name g)).
Proof.
  intros Hu Hh Hn db'.
  assert (Edb : db' = delete_habit_data db (h_name h)).
  { unfold db', habit_delete. rewrite Hn, (proof_habit_In db h Hh). reflexivity. }
  rewrite Edb. clear db' Edb.
  split; [|split].
  - unfold calculate_streak.
    replace (proof_habit (delete_habit_data db (h_name h)) (h_name h)) with false; [reflexivity|].
    symmetry. apply proof_habit_false_iff. intros g Hg. cbn [delete_habit_data habit] in Hg.
    apply filter_In in Hg. destruct Hg as [Hg Hne]. apply negb_true_iff, String.eqb_neq in Hne.
    exact (ci_other_name db h g Hu Hh Hg Hne).
  - unfold calculate_count, get_habit_data, check_offs. cbn [delete_habit_data tracker].
    rewrite filter_name_removed. reflexivity.
  - intros g Hg Hne. split.
    + apply calculate_streak_congr.
      * rewrite (proof_habit_In db g Hg). apply (proof_habit_In (delete_habit_data db (h_name h))).
        cbn [delete_habit_data habit]. apply filter_In. split; [exact Hg|].
        apply negb_true_iff, String.eqb_neq, Hne.
      * unfold check_offs. cbn [delete_habit_data tracker]. apply filter_filter_name, Hne.
      * unfold select_periodicity. cbn [delete_habit_data habit]. f_equal.
        apply find_filter_habit. intros a Ea. apply String.eqb_eq in Ea. rewrite Ea.
        apply negb_true_iff, String.eqb_neq, Hne.
    + unfold calculate_count, get_habit_data, check_offs. cbn [delete_habit_data tracker].
      rewrite filter_filter_name by exact Hne. reflexivity.
Qed.

Lemma habit_delete_removes_only_it_witness :
  let db' := snd (habit_delete (new_habit "Run " "" "daily" "2024-12-05 10:00:00") db_two_habits) in
  calculate_streak db' "run" = Message (not_found_message "run")
  /\ calculate_count db' "run" = 0%nat
  /\ (forall g, In g (habit db_two_habits) -> h_name g <> "run" ->
        calculate_streak db' (h_name g) = calculate_streak db_two_habits (h_name g)
        /\ calculate_count db' (h_name g) = calculate_count db_two_habits (h_name g)).
Proof.
  apply (habit_delete_removes_only_it db_two_habits _
           (mkhabit 2 "run" "No description" "daily" "2024-12-01 09:00:00")).
  - vm_compute. repeat constructor; vm_compute; intuition discriminate.
  - right. left. reflexivity.
  - vm_compute. reflexivity.
Defined.

(** [DBHabit.reset_in_db] of a stored habit clears its check-offs only:
    the habit stays, its streak is 0 and its count 0, and every other habit
    keeps its streak and its count. *)
Theorem reset_in_db_clears_only_it (db : Database) (self : Habit) (h : habit_row) :
  In h (habit db) -> hb_name self = h_name h ->
  let db' := snd (reset_in_db self db) in
  habit db' = habit db
  /\ calculate_streak db' (h_name h) = Streak 0
  /\ calculate_count db' (h_name h) = 0%nat
  /\ (forall g, In g (habit db) -> h_name g <> h_name h ->
        calculate_streak db' (h_name g) = calculate_streak db (h_name g)
        /\ calculate_count db' (h_name g) = calculate_count db (h_name g)).
Proof.
  intros Hh Hn db'.
  assert (Edb : db' = delete_tracker_data db (h_name h)).
  { unfold db', reset_in_db. rewrite Hn, (proof_habit_In db h Hh). reflexivity. }
  rewrite Edb. clear db' Edb.
  split; [reflexivity|]. split; [|split].
  - unfold calculate_streak, select_check_off_dates, check_offs.
    rewrite (proof_habit_In (delete_tracker_data db (h_name h)) h Hh).
    cbn [delete_tracker_data tracker]. rewrite filter_name_removed. reflexivity.
  - unfold calculate_count, get_habit_data, check_offs. cbn [delete_tracker_data tracker].
    rewrite filter_name_removed. reflexivity.
  - intros g Hg Hne. split.
    + apply calculate_streak_congr; [reflexivity| |reflexivity].
      unfold check_offs. cbn [delete_tracker_data tracker]. apply filter_filter_name, Hne.
    + unfold calculate_count, get_habit_data, check_offs. cbn [delete_tracker_data tracker].
      rewrite filter_filter_name by exact Hne. reflexivity.
Qed.

Lemma reset_in_db_clears_only_it_witness :
  let db' := snd (reset_in_db (new_habit "run" "" "daily" "2024-12-05 10:00:00") db_two_habits) in
  habit db' = habit db_two_habits
  /\ calculate_streak db' "run" = Streak 0
  /\ calculate_count db' "run" = 0%nat
  /\ (forall g, In g (habit db_two_habits) -> h_name g <> "run" ->
        calculate_streak db' (h_name g) = calculate_streak db_two_habits (h_name g)
        /\ calculate_count db' (h_name g) = calculate_count db_two_habits (h_name g)).
Proof.
  apply (reset_in_db_clears_only_it db_two_habits _
           (mkhabit 2 "run" "No description" "daily" "2024-12-01 09:00:00")).
  - right. left. reflexivity.
  - vm_compute. reflexivity.
Defined.

Lemma filter_all_false (A : Type) (f : A -> bool) (l : list A) :
  (forall x, In x l -> f x = false) -> filter f l = [].
Proof.
  induction l as [|x l IH]; intros H; [reflexivity|]. simpl.
  rewrite (H x (or_introl eq_refl)). apply IH. intros y Hy. apply H. right. exact Hy.
Qed.

Lemma check_offs_unstored (db : Database) (habit_name : string) :
  fk_ok db -> ~ In habit_name (map h_name (habit db)) -> check_offs db habit_name = [].
Proof.
  intros Hfk Hn. apply filter_all_false. intros r Hr.
  apply String.eqb_neq. intros E. apply Hn. rewrite <- E. apply Hfk, Hr.
Qed.

Lemma delete_data_unstored (db : Database) (habit_name : string) :
  fk_ok db -> ~ In habit_name (map h_name (habit db)) ->
  delete_habit_data db habit_name = db /\ delete_tracker_data db habit_name = db.
Proof.
  intros Hfk Hn.
  assert (Hh : filter (fun h => negb (String.eqb (h_name h) habit_name)) (habit db) = habit db).
  { apply filter_all_true. intros h Hh. apply negb_true_iff, String.eqb_neq.
    intros E. apply Hn. rewrite <- E. apply in_map, Hh. }
  assert (Ht : filter (fun r => negb (String.eqb (t_habit_name r) habit_name)) (tracker db)
               = tracker db).
  { apply filter_all_true. intros r Hr. apply negb_true_iff, String.eqb_neq.
    intros E. apply Hn. rewrite <- E. apply Hfk, Hr. }
  unfold delete_habit_data, delete_tracker_data. rewrite Hh, Ht.
  destruct db; split; reflexivity.
Qed.

(** A name that matches a stored habit only up to case passes the
    case-insensitive [proof_habit], but the exact-name queries behind it
    find nothing: the streak is 0, the count 0 and [get_info] gives no row,
    whatever check-offs the habit has. *)
Theorem case_variant_name_reads_nothing (db : Database) (habit_name : string) :
  fk_ok db -> proof_habit db habit_name = true ->
  ~ In habit_name (map h_name (habit db)) ->
  calculate_streak db habit_name = Streak 0
  /\ calculate_count db habit_name = 0%nat
  /\ get_info db habit_name = inl [].
Proof.
  intros Hfk Hp Hn.
  pose proof (check_offs_unstored db habit_name Hfk Hn) as Hc.
  split; [|split].
  - unfold calculate_streak, select_check_off_dates. rewrite Hp, Hc. reflexivity.
  - unfold calculate_count, get_habit_data. rewrite Hc. reflexivity.
  - unfold get_info. rewrite Hp. f_equal. apply filter_all_false. intros h Hh.
    apply String.eqb_neq. intros E. apply Hn. rewrite <- E. apply in_map, Hh.
Qed.

Lemma case_variant_name_reads_nothing_witness :
  calculate_count db_renamed "Workout" = 2%nat
  /\ calculate_streak db_renamed "workout" = Streak 0
  /\ calculate_count db_renamed "workout" = 0%nat
  /\ get_info db_renamed "workout" = inl [].
Proof.
  split; [reflexivity|]. apply case_variant_name_reads_nothing.
  - intros r [<-|[<-|[]]]; left; reflexivity.
  - reflexivity.
  - intros [E|[]]. discriminate.
Defined.

(** [DBHabit.delete] and [DBHabit.reset_in_db] with a name that matches a
    stored habit only up to case report success but change nothing: their
    [DELETE] statements compare names exactly. *)
Theorem case_variant_delete_reset_no_effect (db : Database) (self : Habit) :
  fk_ok db -> proof_habit db (hb_name self) = true ->
  ~ In (hb_name self) (map h_name (habit db)) ->
  habit_delete self db = ("The habit '" ++ hb_name self ++ "' has been deleted.", db)
  /\ reset_in_db self db
     = ("All progress for habit '" ++ hb_name self ++ "' has been reset.", db).
Proof.
  intros Hfk Hp Hn. destruct (delete_data_unstored db (hb_name self) Hfk Hn) as [Hd Ht].
  unfold habit_delete, reset_in_db. rewrite Hp, Hd, Ht. split; reflexivity.
Qed.

Lemma case_variant_delete_reset_no_effect_witness :
  habit_delete (new_habit "Workout" "" "daily" "2024-12-05 10:00:00") db_renamed
    = ("The habit 'workout' has been deleted.", db_renamed)
  /\ reset_in_db (new_habit "Workout" "" "daily" "2024-12-05 10:00:00") db_renamed
    = ("All progress for habit 'workout' has been reset.", db_renamed).
Proof.
  apply (case_variant_delete_reset_no_effect db_renamed
           (new_habit "Workout" "" "daily" "2024-12-05 10:00:00")).
  - intros r [<-|[<-|[]]]; left; reflexivity.
  - reflexivity.
  - vm_compute. intros [E|[]]. discriminate.
Defined.

(** [DBHabit.add_event] with a name that matches a stored habit only up to
    case: [check_event_exists] looks for check-offs under that exact name,
    finds none, and the event is always added (under the stored name), even
    when the habit was already checked off that day or week. *)
Theorem case_variant_add_event_always_adds (db : Database) (self : Habit) (now : datetime)
    (periodicity : string) :
  fk_ok db -> proof_habit db (hb_name self) = true ->
  ~ In (hb_name self) (map h_name (habit db)) ->
  get_habit_periodicity db (hb_name self) = Some periodicity ->
  periodicity = "daily" \/ periodicity = "weekly" ->
  add_event self db (NoDate now)
  = Some (increment_tracker db (hb_name self) (strftime_stamp now)).
Proof.
  intros Hfk Hp Hn Hg Hper.
  assert (Hnone : forall r, In r (tracker db) -> String.eqb (t_habit_name r) (hb_name self) = false).
  { intros r Hr. apply String.eqb_neq. intros E. apply Hn. rewrite <- E. apply Hfk, Hr. }
  assert (Hex : check_event_exists db (hb_name self) (strftime_stamp now) periodicity = Some false).
  { unfold check_event_exists.
    destruct Hper as [->| ->]; cbn -[existsb sql_date sql_week]; f_equal;
      apply not_true_iff_false; intros E; apply existsb_exists in E;
      destruct E as [r [Hr E]]; rewrite (Hnone r Hr) in E; discriminate. }
  unfold add_event. rewrite Hp, Hg.
  replace (String.eqb periodicity "") with false by (destruct Hper as [->| ->]; reflexivity).
  rewrite Hex. reflexivity.
Qed.

Lemma case_variant_add_event_always_adds_witness :
  add_event (new_habit "Workout" "" "daily" "2024-12-05 10:00:00") db_renamed
    (NoDate (mkdt 2024 12 2 20 0 0))
  = Some (increment_tracker db_renamed "workout" (strftime_stamp (mkdt 2024 12 2 20 0 0)))
  /\ calculate_count
       (snd (increment_tracker db_renamed "workout" (strftime_stamp (mkdt 2024 12 2 20 0 0))))
       "Workout" = 3%nat.
Proof.
  split; [|reflexivity].
  apply (case_variant_add_event_always_adds db_renamed
           (new_habit "Workout" "" "daily" "2024-12-05 10:00:00") _ "daily").
  - intros r [<-|[<-|[]]]; left; reflexivity.
  - reflexivity.
  - vm_compute. intros [E|[]]. discriminate.
  - reflexivity.
  - left. reflexivity.
Defined.

Lemma non_null_app (A : Type) (l l' : list (option A)) :
  non_null (l ++ l')%list = (non_null l ++ non_null l')%list.
Proof. induction l as [|[x|] l IH]; simpl; [reflexivity | rewrite IH | exact IH]; reflexivity. Qed.

Lemma In_non_null (A : Type) (l : list (option A)) (x : A) :
  In x (non_null l) -> In (Some x) l.
Proof.
  induction l as [|[y|] l IH]; simpl; [tauto| |]; intros H.
  - destruct H as [<-|H]; [left; reflexivity | right; exact (IH H)].
  - right. exact (IH H).
Qed.

Lemma add_event_keeps_key_unique (K : Type) (key : stamp -> option K) (keqb : K -> K -> bool)
    (periodicity : string) :
  (forall k, keqb k k = true) ->
  (forall db n t, check_event_exists db n t periodicity =
     Some (existsb (fun r => String.eqb (t_habit_name r) n
                             && sql_eqb keqb (key (t_check_of_date r)) (key t)) (tracker db))) ->
  forall (db : Database) (self : Habit) (h : habit_row) (date : date_arg) (m : string)
         (db' : Database),
  ci_unique db -> In h (habit db) -> hb_name self = h_name h ->
  h_periodicity h = periodicity ->
  NoDup (non_null (map (fun r => key (t_check_of_date r)) (check_offs db (h_name h)))) ->
  add_event self db date = Some (m, db') ->
  NoDup (non_null (map (fun r => key (t_check_of_date r)) (check_offs db' (h_name h)))).
Proof.
  intros Hrefl Hcheck db self h date m db' Hu Hh Hn Hper Hnd H.
  apply add_event_shape in H. destruct H as [->|[t [p [Hp [Hex ->]]]]]; [exact Hnd|].
  rewrite Hn in Hp, Hex.
  assert (Hf := find_ci_unique db h (h_name h) Hu Hh eq_refl).
  unfold get_habit_periodicity in Hp. rewrite Hf in Hp. injection Hp as <-. rewrite Hper in Hex.
  rewrite Hcheck in Hex. injection Hex as Hex.
  unfold increment_tracker. rewrite Hn, Hf. cbn [snd].
  unfold check_offs. cbn [tracker]. rewrite filter_app. cbn [filter t_habit_name].
  rewrite String.eqb_refl, map_app, non_null_app. cbn [map t_check_of_date].
  destruct (key t) as [k|] eqn:Ek; cbn [non_null]; [|rewrite app_nil_r; exact Hnd].
  apply NoDup_snoc; [exact Hnd|]. intros Hin. apply In_non_null, in_map_iff in Hin.
  destruct Hin as [r [Hr Hin]]. apply filter_In in Hin. destruct Hin as [Hin Ename].
  apply not_true_iff_false in Hex. apply Hex. apply existsb_exists. exists r.
  split; [exact Hin|]. rewrite Ename, Hr. apply Hrefl.
Qed.

Lemma date_eqb_refl (a : Z * Z * Z) : date_eqb a a = true.
Proof. destruct a as [[y m] d]. unfold date_eqb, pair_eqb. simpl. rewrite !Z.eqb_refl. reflexivity. Qed.

Lemma pair_eqb_refl (a : Z * Z) : pair_eqb a a = true.
Proof. destruct a as [y w]. unfold pair_eqb. simpl. rewrite !Z.eqb_refl. reflexivity. Qed.

(** [DBHabit.add_event] under the stored name of a daily habit never gives
    it a second check-off on a calendar date that SQLite's [DATE] reads
    from its stored texts (texts it cannot read give [NULL] and are not
    counted, see [add_event_unpadded_date_always_adds]). *)
Theorem add_event_one_checkoff_per_day (db : Database) (self : Habit) (h : habit_row)
    (date : date_arg) (m : string) (db' : Database) :
  ci_unique db -> In h (habit db) -> hb_name self = h_name h ->
  h_periodicity h = "daily" ->
  NoDup (non_null (map (fun r => sql_date (t_check_of_date r)) (check_offs db (h_name h)))) ->
  add_event self db date = Some (m, db') ->
  NoDup (non_null (map (fun r => sql_date (t_check_of_date r)) (check_offs db' (h_name h)))).
Proof.
  apply (add_event_keeps_key_unique _ sql_date date_eqb "daily" date_eqb_refl).
  intros. reflexivity.
Qed.

(** [DBHabit.add_event] under the stored name of a weekly habit never gives
    it a second check-off in a [strftime('%Y-%W')] week that SQLite reads
    from its stored texts (unreadable texts give [NULL] and are not counted). *)
Theorem add_event_one_checkoff_per_week (db : Database) (self : Habit) (h : habit_row)
    (date : date_arg) (m : string) (db' : Database) :
  ci_unique db -> In h (habit db) -> hb_name self = h_name h ->
  h_periodicity h = "weekly" ->
  NoDup (non_null (map (fun r => sql_week (t_check_of_date r)) (check_offs db (h_name h)))) ->
  add_event self db date = Some (m, db') ->
  NoDup (non_null (map (fun r => sql_week (t_check_of_date r)) (check_offs db' (h_name h)))).
Proof.
  apply (add_event_keeps_key_unique _ sql_week pair_eqb "weekly" pair_eqb_refl).
  intros. reflexivity.
Qed.

Lemma add_event_one_checkoff_per_day_witness :
  add_event (new_habit "run" "" "daily" "2024-12-05 10:00:00") db_two_habits
    (GivenDate "2024-12-02" (Some (2024, 12, 2)))
  = Some ("Habit 'run' was already checked-off on 2024-12-02.", db_two_habits)
  /\ NoDup (non_null (map (fun r => sql_date (t_check_of_date r))
       (check_offs db_two_habits "run"))).
Proof.
  split; [vm_compute; reflexivity|].
  apply (add_event_one_checkoff_per_day db_two_habits
           (new_habit "run" "" "daily" "2024-12-05 10:00:00")
           (mkhabit 2 "run" "No description" "daily" "2024-12-01 09:00:00")
           (GivenDate "2024-12-02" (Some (2024, 12, 2)))
           "Habit 'run' was already checked-off on 2024-12-02.").
  - vm_compute. repeat constructor; vm_compute; intuition discriminate.
  - right. left. reflexivity.
  - vm_compute. reflexivity.
  - reflexivity.
  - vm_compute. repeat constructor; vm_compute; intuition discriminate.
  - vm_compute. reflexivity.
Defined.

Lemma add_event_one_checkoff_per_week_witness :
  NoDup (non_null (map (fun r => sql_week (t_check_of_date r))
    (check_offs (snd (increment_tracker populated_db "car wash"
                        (mkstamp "2024-12-30 00:00:00" (mkdt 2024 12 30 0 0 0))))
       "car wash"))).
Proof.
  apply (add_event_one_checkoff_per_week populated_db
           (new_habit "car wash" "" "weekly" "2024-12-05 10:00:00")
           (mkhabit 2 "car wash" "Wash the car weekly" "weekly" "2024-12-01 09:00:00")
           (GivenDate "2024-12-30" (Some (2024, 12, 30)))
           (fst (increment_tracker populated_db "car wash"
                   (mkstamp "2024-12-30 00:00:00" (mkdt 2024 12 30 0 0 0))))).
  - vm_compute. repeat constructor; vm_compute; intuition discriminate.
  - vm_compute. right. left. reflexivity.
  - vm_compute. reflexivity.
  - reflexivity.
  - vm_compute. repeat constructor; vm_compute; intuition discriminate.
  - vm_compute. reflexivity.
Defined.

(** [DBHabit.add_event] with a given date that [strptime] accepts but
    whose month or day is not zero-padded (["2024-12-2"]) stores the text
    [f"{date} 00:00:00"], on which SQLite's [DATE] and [strftime] give
    [NULL]: [check_event_exists] never matches it, and the event is added
    for a daily or weekly habit even when that day or week already has one. *)
Theorem add_event_unpadded_date_always_adds (db : Database) (self : Habit) (h : habit_row)
    (text : string) (y mo d : Z) :
  ci_unique db -> In h (habit db) -> hb_name self = h_name h ->
  h_periodicity h = "daily" \/ h_periodicity h = "weekly" ->
  (text ++ " 00:00:00") <> format_datetime (mkdt y mo d 0 0 0) ->
  add_event self db (GivenDate text (Some (y, mo, d)))
  = Some (increment_tracker db (hb_name self)
            (mkstamp (text ++ " 00:00:00") (mkdt y mo d 0 0 0))).
Proof.
  intros Hu Hh Hn Hper Hnp.
  assert (Hr : sql_readable (mkstamp (text ++ " 00:00:00") (mkdt y mo d 0 0 0)) = false)
    by (apply String.eqb_neq; exact Hnp).
  assert (Hg : get_habit_periodicity db (hb_name self) = Some (h_periodicity h)).
  { unfold get_habit_periodicity. rewrite Hn, (find_ci_unique db h (h_name h) Hu Hh eq_refl).
    reflexivity. }
  assert (Hex : check_event_exists db (hb_name self)
                  (mkstamp (text ++ " 00:00:00") (mkdt y mo d 0 0 0)) (h_periodicity h)
                = Some false).
  { unfold check_event_exists, sql_date, sql_week. rewrite Hr.
    assert (F : forall (A : Type) (eqb : A -> A -> bool) (key : tracker_row -> option A),
              existsb (fun r => String.eqb (t_habit_name r) (hb_name self)
                                && sql_eqb eqb (key r) None) (tracker db) = false).
    { intros A eqb key. apply not_true_iff_false. intros E. apply existsb_exists in E.
      destruct E as [r [_ E]]. apply andb_prop in E. destruct E as [_ E].
      destruct (key r); discriminate. }
    destruct Hper as [-> | ->]; cbn -[existsb]; rewrite F; reflexivity. }
  unfold add_event. rewrite Hn, (proof_habit_In db h Hh), <- Hn, Hg.
  replace (String.eqb (h_periodicity h) "") with false
    by (destruct Hper as [-> | ->]; reflexivity).
  rewrite Hex. reflexivity.
Qed.

Lemma add_event_unpadded_date_always_adds_witness :
  add_event (new_habit "run" "" "daily" "2024-12-05 10:00:00") db_two_habits
    (GivenDate "2024-12-2" (Some (2024, 12, 2)))
  = Some (increment_tracker db_two_habits "run"
            (mkstamp "2024-12-2 00:00:00" (mkdt 2024 12 2 0 0 0)))
  /\ map (fun r => dt_day (st_time (t_check_of_date r)))
       (check_offs (snd (increment_tracker db_two_habits "run"
                           (mkstamp "2024-12-2 00:00:00" (mkdt 2024 12 2 0 0 0)))) "run")
     = [2; 2].
Proof.
  split; [|vm_compute; reflexivity].
  apply (add_event_unpadded_date_always_adds db_two_habits
           (new_habit "run" "" "daily" "2024-12-05 10:00:00")
           (mkhabit 2 "run" "No description" "daily" "2024-12-01 09:00:00")).
  - vm_compute. repeat constructor; vm_compute; intuition discriminate.
  - right. left. reflexivity.
  - vm_compute. reflexivity.
  - left. reflexivity.
  - vm_compute. discriminate.
Defined.

Lemma drop_spaces_suffix (l : list ascii) : exists p, l = (p ++ drop_spaces l)%list.
Proof.
  induction l as [|c l [p IH]]; [exists []; reflexivity|]. simpl.
  destruct (is_space c); [exists (c :: p); simpl; rewrite <- IH; reflexivity|].
  exists []. reflexivity.
Qed.

Lemma drop_spaces_head (l : list ascii) :
  drop_spaces l = [] \/ exists c t, drop_spaces l = c :: t /\ is_space c = false.
Proof.
  induction l as [|c l IH]; [left; reflexivity|]. simpl.
  destruct (is_space c) eqn:E; [exact IH|]. right. exists c, l. split; [reflexivity | exact E].
Qed.

Lemma drop_spaces_nonspace_head (l : list ascii) :
  (l = [] \/ exists c t, l = c :: t /\ is_space c = false) -> drop_spaces l = l.
Proof. intros [->|[c [t [-> E]]]]; simpl; [reflexivity | rewrite E; reflexivity]. Qed.

Lemma drop_spaces_idem (l : list ascii) : drop_spaces (drop_spaces l) = drop_spaces l.
Proof. apply drop_spaces_nonspace_head, drop_spaces_head. Qed.

Lemma strip_idem (s : string) : strip (strip s) = strip s.
Proof.
  unfold strip. rewrite list_ascii_of_string_of_list_ascii.
  set (m := drop_spaces (list_ascii_of_string s)).
  set (q := rev (drop_spaces (rev m))).
  assert (Hq : drop_spaces q = q).
  { destruct (drop_spaces_suffix (rev m)) as [p Hp].
    assert (Hm : m = (q ++ rev p)%list).
    { unfold q. rewrite <- (rev_involutive m) at 1. rewrite Hp at 1. rewrite rev_app_distr. reflexivity. }
    apply drop_spaces_nonspace_head. destruct q as [|c t] eqn:Eq; [left; reflexivity|].
    right. exists c, t. split; [reflexivity|].
    destruct (drop_spaces_head (list_ascii_of_string s)) as [E|[c' [t' [E Hc']]]];
      fold m in E; rewrite E in Hm; [destruct p; discriminate Hm|].
    injection Hm as <- _. exact Hc'. }
  rewrite Hq. unfold q. rewrite rev_involutive, drop_spaces_idem. reflexivity.
Qed.

Lemma normalise_idem (s : string) : lower (strip (lower (strip s))) = lower (strip s).
Proof. rewrite lower_strip, lower_idem, <- lower_strip, strip_idem. reflexivity. Qed.

Lemma proof_habit_false_exact (db : Database) (habit_name : string) :
  proof_habit db habit_name = false -> ~ In habit_name (map h_name (habit db)).
Proof.
  intros Hp Hin. apply in_map_iff in Hin. destruct Hin as [h [Hh Hin]].
  apply (proj1 (proof_habit_false_iff db habit_name) Hp h Hin). rewrite Hh. reflexivity.
Qed.

(** Storing a new [DBHabit(name, description, periodicity)] whose
    normalised name is non-empty and not yet taken (up to case) appends one
    habit row: [get_info] then returns exactly that row, with the stripped
    description or ["No description"], the habit starts with streak 0 and
    the list of habit names grows by the new name. *)
Theorem store_new_habit_round_trip (db : Database) (name description periodicity date : string) :
  fk_ok db ->
  lower (strip name) <> "" -> proof_habit db (lower (strip name)) = false ->
  let self := new_habit name description periodicity date in
  let n := lower (strip name) in
  let db' := snd (store self db) in
  fst (store self db) = "Habit '" ++ n ++ "' added successfully."
  /\ get_info db' n
     = inl [mkhabit (next_habit_id db) n
              (if String.eqb (strip description) "" then "No description" else strip description)
              periodicity date]
  /\ calculate_streak db' n = Streak 0
  /\ get_current_habit_names db' = (get_current_habit_names db ++ [n])%list.
Proof.
  intros Hfk Hne Hp self n db'. change (lower (strip name)) with n in Hne, Hp.
  assert (Hnot := proof_habit_false_exact db n Hp).
  assert (Hst : store self db = add_habit db n
            (if String.eqb (strip description) "" then "No description" else strip description)
            periodicity date).
  { unfold store, self, new_habit. cbn [hb_name hb_description hb_periodicity hb_date].
    rewrite <- lower_strip, strip_idem. fold n.
    rewrite (proj2 (String.eqb_neq _ _) Hne), strip_idem. fold n. rewrite Hp.
    destruct (String.eqb (strip description) ""); reflexivity. }
  assert (Had : add_habit db n
            (if String.eqb (strip description) "" then "No description" else strip description)
            periodicity date
         = ("Habit '" ++ n ++ "' added successfully.",
            mkdb (habit db ++ [mkhabit (next_habit_id db) n
              (if String.eqb (strip description) "" then "No description" else strip description)
              periodicity date])%list (tracker db) (S (next_habit_id db)))).
  { unfold add_habit. unfold n at 1 2 3 4 5 6 7. rewrite normalise_idem. fold n.
    rewrite (proj2 (String.eqb_neq _ _) Hne).
    unfold proof_habit in Hp. rewrite Hp.
    replace (existsb (fun h => String.eqb (h_name h) n) (habit db)) with false.
    2:{ symmetry. apply not_true_iff_false. intros E. apply existsb_exists in E.
        destruct E as [h [Hh E]]. apply String.eqb_eq in E. apply Hnot. rewrite <- E.
        apply in_map, Hh. }
    destruct (String.eqb (strip description) "") eqn:Ed; [reflexivity|].
    rewrite strip_idem, Ed. reflexivity. }
  unfold db'. rewrite Hst, Had. cbn [fst snd].
  assert (Hpr : proof_habit (mkdb (habit db ++ [mkhabit (next_habit_id db) n
              (if String.eqb (strip description) "" then "No description" else strip description)
              periodicity date])%list (tracker db) (S (next_habit_id db))) n = true).
  { apply (proof_habit_In _ (mkhabit (next_habit_id db) n
      (if String.eqb (strip description) "" then "No description" else strip description)
      periodicity date)).
    cbn [habit]. apply in_or_app. right. left. reflexivity. }
  split; [reflexivity|]. split; [|split].
  - unfold get_info. rewrite Hpr. cbn [habit]. rewrite filter_app.
    rewrite filter_all_false.
    2:{ intros h Hh. apply String.eqb_neq. intros E. apply Hnot. rewrite <- E. apply in_map, Hh. }
    cbn [filter h_name]. rewrite String.eqb_refl. reflexivity.
  - unfold calculate_streak, select_check_off_dates. rewrite Hpr.
    change (check_offs (mkdb _ (tracker db) _) n) with (check_offs db n).
    rewrite (check_offs_unstored db n Hfk Hnot). reflexivity.
  - unfold get_current_habit_names. cbn [habit]. rewrite map_app. reflexivity.
Qed.

Lemma store_new_habit_round_trip_witness :
  let self := new_habit "  Read Books " " 20 pages " "daily" "2024-12-05 10:00:00" in
  let db' := snd (store self db_two_habits) in
  fst (store self db_two_habits) = "Habit 'read books' added successfully."
  /\ get_info db' "read books"
     = inl [mkhabit 3 "read books" "20 pages" "daily" "2024-12-05 10:00:00"]
  /\ calculate_streak db' "read books" = Streak 0
  /\ get_current_habit_names db' = ["workout"; "run"; "read books"].
Proof.
  apply (store_new_habit_round_trip db_two_habits "  Read Books " " 20 pages " "daily"
           "2024-12-05 10:00:00").
  - intros r [<-|[]]. right. left. reflexivity.
  - vm_compute. discriminate.
  - vm_compute. reflexivity.
Defined.

Lemma longest_streak_of_snoc_le (periodicity : string) (ds : list datetime) (t : datetime) :
  (longest_streak_of periodicity (ds ++ [t])%list <= S (longest_streak_of periodicity ds))%nat.
Proof.
  destruct ds as [|d rest]; simpl; [lia|].
  rewrite streak_loop_snoc.
  destruct (streak_loop periodicity (0%nat, 1%nat) d rest) as [l c].
  destruct (streak_step_shape periodicity l c (last rest d) t) as [E|[E|E]]; rewrite E; lia.
Qed.

(** Checking off a stored habit with a text no smaller (in the text order
    of [ORDER BY]) than any of its check-offs never lowers its streak, and
    raises it by at most one. *)
Theorem increment_tracker_later_keeps_streak (db : Database) (habit_name : string)
    (t : stamp) :
  ci_unique db -> In habit_name (map h_name (habit db)) ->
  (forall r, In r (check_offs db habit_name) ->
     String.leb (st_text (t_check_of_date r)) (st_text t) = true) ->
  exists k k', calculate_streak db habit_name = Streak k
    /\ calculate_streak (snd (increment_tracker db habit_name t)) habit_name = Streak k'
    /\ (k <= k' <= S k)%nat.
Proof.
  intros Hu Hin Hle. apply in_map_iff in Hin. destruct Hin as [h [<- Hh]].
  destruct (increment_tracker_shape db (h_name h) t) as [[F _]|[h' [F E]]].
  { rewrite (find_ci_unique db h (h_name h) Hu Hh eq_refl) in F. discriminate. }
  rewrite (find_ci_unique db h (h_name h) Hu Hh eq_refl) in F. injection F as <-.
  rewrite E. destruct (select_periodicity_In db h Hh) as [p Hp].
  set (db' := mkdb (habit db) (tracker db ++ [mktrack t (h_name h)])%list (next_habit_id db)).
  assert (Hs : select_check_off_dates db' (h_name h)
               = (select_check_off_dates db (h_name h) ++ [st_time t])%list).
  { unfold select_check_off_dates. unfold check_offs at 1. cbn [db' tracker].
    rewrite filter_app. cbn [filter t_habit_name]. rewrite String.eqb_refl, map_app.
    cbn [map]. rewrite sort_stamps_snoc, map_app; [reflexivity|].
    intros x Hx. apply in_map_iff in Hx. destruct Hx as [r [<- Hr]]. apply Hle, Hr. }
  rewrite (calculate_streak_found db (h_name h) (proof_habit_In db h Hh)).
  rewrite (calculate_streak_found db' (h_name h) (proof_habit_In db' h Hh)).
  rewrite Hs. change (select_periodicity db' (h_name h)) with (select_periodicity db (h_name h)).
  rewrite Hp. destruct (select_check_off_dates db (h_name h)) as [|d ds] eqn:Ed.
  - exists 0%nat, 1%nat. split; [reflexivity|]. split; [reflexivity | lia].
  - exists (longest_streak_of p (d :: ds)), (longest_streak_of p ((d :: ds) ++ [st_time t])%list).
    split; [reflexivity|]. split; [destruct ds; reflexivity|].
    split; [apply longest_streak_of_snoc | apply longest_streak_of_snoc_le].
Qed.

Lemma increment_tracker_later_keeps_streak_witness :
  exists k k', calculate_streak db_two_habits "run" = Streak k
    /\ calculate_streak (snd (increment_tracker db_two_habits "run"
                                (strftime_stamp (mkdt 2024 12 3 7 30 0)))) "run"
       = Streak k'
    /\ (k <= k' <= S k)%nat.
Proof.
  apply increment_tracker_later_keeps_streak.
  - vm_compute. repeat constructor; vm_compute; intuition discriminate.
  - right. left. reflexivity.
  - intros r [<-|[]]. reflexivity.
Defined.

(** [DBHabit.add_event] never changes the habit table or the id counter
    and never removes a check-off: it adds at most one. *)
Theorem add_event_appends_at_most_one (self : Habit) (db : Database) (date : date_arg)
    (m : string) (db' : Database) :
  add_event self db date = Some (m, db') ->
  habit db' = habit db /\ next_habit_id db' = next_habit_id db
  /\ exists rows, tracker db' = (tracker db ++ rows)%list /\ (List.length rows <= 1)%nat.
Proof.
  intros H. apply add_event_shape in H. destruct H as [->|[t [p [_ [_ ->]]]]].
  - split; [reflexivity|]. split; [reflexivity|]. exists []. rewrite app_nil_r. split; [reflexivity|].
    simpl. lia.
  - destruct (increment_tracker_shape db (hb_name self) t) as [[_ E]|[h [_ E]]]; rewrite E.
    + split; [reflexivity|]. split; [reflexivity|]. exists []. rewrite app_nil_r.
      split; [reflexivity|]. simpl. lia.
    + split; [reflexivity|]. split; [reflexivity|]. eexists. split; [reflexivity|]. simpl. lia.
Qed.

Lemma add_event_appends_at_most_one_witness :
  let db' := snd (increment_tracker db_two_habits "run" (strftime_stamp (mkdt 2024 12 3 7 0 0))) in
  habit db' = habit db_two_habits
  /\ next_habit_id db' = next_habit_id db_two_habits
  /\ exists rows, tracker db' = (tracker db_two_habits ++ rows)%list /\ (List.length rows <= 1)%nat.
Proof.
  apply (add_event_appends_at_most_one (new_habit "run" "" "daily" "2024-12-05 10:00:00")
           db_two_habits (NoDate (mkdt 2024 12 3 7 0 0))
           (fst (increment_tracker db_two_habits "run" (strftime_stamp (mkdt 2024 12 3 7 0 0))))).
  vm_compute. reflexivity.
Defined.

(** [DBHabit.add_event] for a habit whose periodicity is neither [daily]
    nor [weekly] (nor empty) raises a [TypeError] in [check_event_exists],
    which ran no query, once the date is valid. *)
Theorem add_event_other_periodicity_type_error (self : Habit) (db : Database)
    (date : date_arg) (periodicity : string) :
  proof_habit db (hb_name self) = true ->
  get_habit_periodicity db (hb_name self) = Some periodicity ->
  periodicity <> "" -> periodicity <> "daily" -> periodicity <> "weekly" ->
  match date with GivenDate _ None => False | _ => True end ->
  add_event self db date = None.
Proof.
  intros Hp Hg Hne Hd Hw Hdate.
  assert (Hc : forall t, check_event_exists db (hb_name self) t periodicity = None).
  { intros t. unfold check_event_exists.
    rewrite (proj2 (String.eqb_neq _ _) Hd), (proj2 (String.eqb_neq _ _) Hw). reflexivity. }
  unfold add_event. rewrite Hp.
  destruct date as [now|text [[[y mo] d]|]]; [| |contradiction];
    rewrite Hg, (proj2 (String.eqb_neq _ _) Hne), Hc; reflexivity.
Qed.

Lemma add_event_other_periodicity_type_error_witness :
  add_event (new_habit "Laundry" "" "monthly" "2024-12-05 10:00:00") db_monthly
    (GivenDate "2024-12-03" (Some (2024, 12, 3))) = None.
Proof.
  apply (add_event_other_periodicity_type_error _ _ _ "monthly").
  - reflexivity.
  - reflexivity.
  - discriminate.
  - discriminate.
  - discriminate.
  - exact I.
Defined.

Lemma filter_exact_unique (l : list habit_row) (h : habit_row) :
  NoDup (map (fun h => lower (h_name h)) l) -> In h l ->
  filter (fun g => String.eqb (h_name g) (h_name h)) l = [h].
Proof.
  induction l as [|x l IH]; intros Hnd Hin; [destruct Hin|].
  simpl in Hnd. apply NoDup_cons_iff in Hnd. destruct Hnd as [Hx Hnd]. simpl.
  destruct Hin as [<-|Hin].
  - rewrite String.eqb_refl. f_equal. apply filter_all_false. intros g Hg.
    apply String.eqb_neq. intros E. apply Hx. rewrite <- E. apply (in_map (fun h => lower (h_name h))), Hg.
  - destruct (String.eqb (h_name x) (h_name h)) eqn:E.
    + apply String.eqb_eq in E. exfalso. apply Hx. rewrite E.
      apply (in_map (fun h => lower (h_name h))), Hin.
    + apply IH; assumption.
Qed.

Lemma filter_map_name (f : habit_row -> habit_row) (l : list habit_row) (n : string) :
  (forall g, h_name (f g) = h_name g) ->
  filter (fun g => String.eqb (h_name g) n) (map f l)
  = map f (filter (fun g => String.eqb (h_name g) n) l).
Proof.
  intros Hf. induction l as [|x l IH]; [reflexivity|]. simpl. rewrite Hf.
  destruct (String.eqb (h_name x) n); simpl; [f_equal|]; exact IH.
Qed.

Lemma proof_habit_names (db db' : Database) (habit_name : string) :
  map h_name (habit db') = map h_name (habit db) ->
  proof_habit db' habit_name = proof_habit db habit_name.
Proof.
  intros E. unfold proof_habit.
  assert (G : forall l, existsb (fun h => String.eqb (lower (h_name h)) (lower habit_name)) l
             = existsb (fun n => String.eqb (lower n) (lower habit_name)) (map h_name l))
    by (induction l as [|x l IH]; simpl; [reflexivity | rewrite IH; reflexivity]).
  rewrite !G, E. reflexivity.
Qed.

Lemma filter_map_fixed (f : habit_row -> habit_row) (p : habit_row -> bool) (l : list habit_row) :
  (forall g, p (f g) = p g) -> (forall g, p g = true -> f g = g) ->
  filter p (map f l) = filter p l.
Proof.
  intros Hp Hf. induction l as [|x l IH]; [reflexivity|]. simpl. rewrite Hp.
  destruct (p x) eqn:E; [rewrite (Hf x E), IH; reflexivity | exact IH].
Qed.

(** [update_habit] without a new name, on a habit found up to case, sets
    the given non-empty description and periodicity on that habit only,
    leaves every other habit row as it was, keeps every name and every
    check-off, and reports the stored name. *)
Theorem update_habit_sets_fields (db : Database) (old_name : string) (h : habit_row)
    (new_description new_periodicity : option string) :
  ci_unique db -> In h (habit db) -> lower old_name = lower (h_name h) ->
  exists db',
    update_habit db old_name None new_description new_periodicity
      = Some ("Habit '" ++ h_name h ++ "' has been updated successfully.", db')
    /\ get_info db' (h_name h)
       = inl [mkhabit (h_id h) (h_name h)
                (match truthy new_description with Some d => d | None => h_description h end)
                (match truthy new_periodicity with Some p => p | None => h_periodicity h end)
                (h_date h)]
    /\ filter (fun g => negb (String.eqb (h_name g) (h_name h))) (habit db')
       = filter (fun g => negb (String.eqb (h_name g) (h_name h))) (habit db)
    /\ tracker db' = tracker db
    /\ get_current_habit_names db' = get_current_habit_names db.
Proof.
  intros Hu Hh Hl. unfold update_habit. rewrite (find_ci_unique db h old_name Hu Hh Hl).
  cbn [truthy]. eexists. split; [reflexivity|].
  set (db2 := match truthy new_description with
              | Some d => set_description db (h_name h) d | None => db end).
  set (db3 := match truthy new_periodicity with
              | Some p => set_periodicity db2 (h_name h) p | None => db2 end).
  assert (N2 : map h_name (habit db2) = map h_name (habit db))
    by (unfold db2; destruct (truthy new_description); [apply names_set_description | reflexivity]).
  assert (N3 : map h_name (habit db3) = map h_name (habit db))
    by (unfold db3; destruct (truthy new_periodicity);
        [rewrite names_set_periodicity; exact N2 | exact N2]).
  assert (F2 : filter (fun g => String.eqb (h_name g) (h_name h)) (habit db2)
     = [mkhabit (h_id h) (h_name h)
          (match truthy new_description with Some d => d | None => h_description h end)
          (h_periodicity h) (h_date h)]).
  { unfold db2. destruct (truthy new_description) as [d|].
    - cbn [set_description habit]. rewrite filter_map_name
        by (intros g; destruct (String.eqb (h_name g) (h_name h)); reflexivity).
      rewrite filter_exact_unique by assumption. simpl. rewrite String.eqb_refl. reflexivity.
    - rewrite filter_exact_unique by assumption. destruct h; reflexivity. }
  split; [|split; [|split]].
  - unfold get_info. rewrite (proof_habit_names db db3 _ N3), (proof_habit_In db h Hh). f_equal.
    unfold db3. destruct (truthy new_periodicity) as [p|].
    + cbn [set_periodicity habit]. rewrite filter_map_name
        by (intros g; destruct (String.eqb (h_name g) (h_name h)); reflexivity).
      rewrite F2. simpl. rewrite String.eqb_refl. reflexivity.
    + exact F2.
  - assert (Fx : forall (upd : habit_row -> habit_row) (db0 : Database),
              (forall g, h_name (upd g) = h_name g) ->
              filter (fun g => negb (String.eqb (h_name g) (h_name h)))
                (map (fun g => if String.eqb (h_name g) (h_name h) then upd g else g) (habit db0))
              = filter (fun g => negb (String.eqb (h_name g) (h_name h))) (habit db0)).
    { intros upd db0 Hn. apply filter_map_fixed.
      - intros g. cbv beta. destruct (String.eqb (h_name g) (h_name h)) eqn:E; [rewrite Hn, E | rewrite E]; reflexivity.
      - intros g E. apply negb_true_iff in E. rewrite E. reflexivity. }
    assert (E2 : filter (fun g => negb (String.eqb (h_name g) (h_name h))) (habit db2)
                 = filter (fun g => negb (String.eqb (h_name g) (h_name h))) (habit db)).
    { unfold db2. destruct (truthy new_description) as [d|]; [|reflexivity].
      exact (Fx (fun g => mkhabit (h_id g) (h_name g) d (h_periodicity g) (h_date g)) db
                (fun g => eq_refl)). }
    unfold db3. destruct (truthy new_periodicity) as [p|]; [|exact E2].
    rewrite <- E2.
    exact (Fx (fun g => mkhabit (h_id g) (h_name g) (h_description g) p (h_date g)) db2
              (fun g => eq_refl)).
  - unfold db3, db2. destruct (truthy new_periodicity), (truthy new_description); reflexivity.
  - exact N3.
Qed.

Lemma update_habit_sets_fields_witness :
  exists db',
    update_habit db_two_habits "RUN" None (Some "Run 5k") (Some "weekly")
      = Some ("Habit 'run' has been updated successfully.", db')
    /\ get_info db' "run" = inl [mkhabit 2 "run" "Run 5k" "weekly" "2024-12-01 09:00:00"]
    /\ filter (fun g => negb (String.eqb (h_name g) "run")) (habit db')
       = filter (fun g => negb (String.eqb (h_name g) "run")) (habit db_two_habits)
    /\ tracker db' = tracker db_two_habits
    /\ get_current_habit_names db' = get_current_habit_names db_two_habits.
Proof.
  apply (update_habit_sets_fields db_two_habits "RUN"
           (mkhabit 2 "run" "No description" "daily" "2024-12-01 09:00:00")).
  - vm_compute. repeat constructor; vm_compute; intuition discriminate.
  - right. left. reflexivity.
  - reflexivity.
Defined.
